(** * GPIO pin lifecycle and pulse control of pypboy

    A shallow embedding of [pages/gpio_page.py] (class [GPIOPage], the
    pin table [PIN_CONFIG], the pulse thread) and of the automation hub
    methods of [main.py] ([request_gpio_action], [request_gpio_pulse]).

    Python dictionaries whose iteration order is observable
    ([persistent_pins], the JSON state file) are insertion-ordered
    association lists; the two dictionaries that are only looked up by key
    ([active_devices], [pulse_threads]) are [gmap]s.  gpiozero objects live
    in a heap indexed by object identity, because the device table and a
    running pulse thread share the same object.  Floats are rationals. *)

From Stdlib Require Import QArith Ascii String.
From stdpp Require Import gmap strings list pretty.

Local Open Scope Z_scope.
Local Open Scope string_scope.

(** ** PinCatalog: [PinInfo], [PIN_CONFIG], [BCM_PIN_MAP] *)

Record PinInfo := {
  physical_pin : Z;
  name : string;
  type : string;
  bcm : option Z;
  supports_pwm : bool
}.

Definition power (p : Z) (n : string) : PinInfo :=
  {| physical_pin := p; name := n; type := "power"; bcm := None; supports_pwm := false |}.
Definition ground (p : Z) : PinInfo :=
  {| physical_pin := p; name := "GND"; type := "ground"; bcm := None; supports_pwm := false |}.
Definition gpio (p : Z) (n : string) (b : Z) : PinInfo :=
  {| physical_pin := p; name := n; type := "gpio"; bcm := Some b; supports_pwm := false |}.
Definition gpio_pwm (p : Z) (n : string) (b : Z) : PinInfo :=
  {| physical_pin := p; name := n; type := "gpio"; bcm := Some b; supports_pwm := true |}.

Definition PIN_CONFIG : list PinInfo := [
  power 1 "3.3v"; power 2 "5v"; gpio 3 "SDA" 2;
  power 4 "5v"; gpio 5 "SCL" 3; ground 6;
  gpio 7 "GPIO4" 4; gpio 8 "TXD" 14; ground 9;
  gpio 10 "RXD" 15; gpio 11 "GPIO17" 17;
  gpio_pwm 12 "GPIO18" 18; gpio 13 "GPIO27" 27;
  ground 14; gpio 15 "GPIO22" 22; gpio 16 "GPIO23" 23;
  power 17 "3.3v"; gpio 18 "GPIO24" 24; gpio 19 "MOSI" 10;
  ground 20; gpio 21 "MISO" 9; gpio 22 "GPIO25" 25;
  gpio 23 "SCLK" 11; gpio 24 "CE0" 8; ground 25;
  gpio 26 "CE1" 7; gpio 27 "ID_SD" 0; gpio 28 "ID_SC" 1;
  gpio 29 "GPIO5" 5; ground 30; gpio 31 "GPIO6" 6;
  gpio_pwm 32 "GPIO12" 12; gpio_pwm 33 "GPIO13" 13;
  ground 34; gpio_pwm 35 "GPIO19" 19;
  gpio 36 "GPIO16" 16; gpio 37 "GPIO26" 26;
  gpio 38 "GPIO20" 20; ground 39; gpio 40 "GPIO21" 21
].

(** [{info.bcm: info for info in PIN_CONFIG if info.bcm is not None}]:
    a later entry with the same key replaces an earlier one. *)
Definition BCM_PIN_MAP : gmap Z PinInfo :=
  foldl (fun m info => match bcm info with
                       | Some b => <[b := info]> m
                       | None => m
                       end) ∅ PIN_CONFIG.

(** The keys of [GPIOPage.pin_display_widgets]: one widget is registered
    for every entry of [PIN_CONFIG] whose [bcm] is not [None]. *)
Definition pin_display_widgets : gset Z :=
  foldl (fun ws info => match bcm info with
                        | Some b => {[ b ]} ∪ ws
                        | None => ws
                        end) ∅ PIN_CONFIG.

(** ** Modes and gpiozero objects *)

Inductive PinMode := OUTPUT | INPUT | PWM.

#[global] Instance PinMode_eq_dec : EqDecision PinMode.
Proof. solve_decision. Defined.

(** [mode.name]; for this enum [mode.value] is the same string. *)
Definition mode_name (m : PinMode) : string :=
  match m with OUTPUT => "OUTPUT" | INPUT => "INPUT" | PWM => "PWM" end.

(** [PinMode[mode_str]]: lookup by member name, [None] is [KeyError]. *)
Definition PinMode_by_name (s : string) : option PinMode :=
  if String.eqb s "OUTPUT" then Some OUTPUT
  else if String.eqb s "INPUT" then Some INPUT
  else if String.eqb s "PWM" then Some PWM
  else None.

(** The three gpiozero classes the page instantiates, with the part of
    their state the page reads or writes. *)
Inductive Device :=
  | LED (pin : Z) (is_lit : bool)
  | PWMLED (pin : Z) (value : Q)
  | Button (pin : Z).

Record GZDevice := { obj : Device; closed : bool }.

Definition is_LED (d : GZDevice) : bool :=
  match obj d with LED _ _ => true | _ => false end.
Definition is_PWMLED (d : GZDevice) : bool :=
  match obj d with PWMLED _ _ => true | _ => false end.
Definition is_Button (d : GZDevice) : bool :=
  match obj d with Button _ => true | _ => false end.

(** [type(device).__name__] *)
Definition type_name (d : GZDevice) : string :=
  match obj d with LED _ _ => "LED" | PWMLED _ _ => "PWMLED" | Button _ => "Button" end.


(** A fresh object of the class [setup_pin] picks for a mode: an [LED]
    starts off, a [PWMLED] starts at duty cycle 0. *)
Definition new_device (m : PinMode) (bcm_pin : Z) : GZDevice :=
  {| obj := match m with
            | OUTPUT => LED bcm_pin false
            | INPUT => Button bcm_pin
            | PWM => PWMLED bcm_pin 0%Q
            end;
     closed := false |}.

(** ** Persistence records: the values of [persistent_pins] and of the
    JSON file *)

(** What [save_persistent_states] stores under ["state"]: the text
    ["HIGH"] or ["LOW"] for an [LED], a number for a [PWMLED]. *)
Inductive SavedState := HIGH | LOW | Number (q : Q).

(** The inner dictionary [{"is_persistent": True, "mode": ..., "state": ...}];
    a key that is absent is [None]. *)
Record PinRecord := {
  is_persistent : bool;
  rec_mode : option string;
  rec_state : option SavedState
}.

(** An insertion-ordered dictionary with integer keys. *)
Definition PinStates := list (Z * PinRecord).

Fixpoint dict_get (k : Z) (d : PinStates) : option PinRecord :=
  match d with
  | [] => None
  | (k', v) :: rest => if Z.eqb k k' then Some v else dict_get k rest
  end.

Definition dict_contains (k : Z) (d : PinStates) : bool :=
  match dict_get k d with Some _ => true | None => false end.

(** [d[k] = v]: an existing key keeps its position, a new key goes last. *)
Fixpoint dict_set (k : Z) (v : PinRecord) (d : PinStates) : PinStates :=
  match d with
  | [] => [(k, v)]
  | (k', v') :: rest =>
      if Z.eqb k k' then (k, v) :: rest else (k', v') :: dict_set k v rest
  end.

(** [d.pop(k, None)] *)
Fixpoint dict_pop (k : Z) (d : PinStates) : PinStates :=
  match d with
  | [] => []
  | (k', v') :: rest =>
      if Z.eqb k k' then dict_pop k rest else (k', v') :: dict_pop k rest
  end.

(** ** Pulse threads *)

(** Program points of [_pulse_loop]. *)
Inductive PulsePc :=
  | PcStart      (* entry: the guard on the device class *)
  | PcTest       (* [while not stop_event.is_set()] *)
  | PcToggle     (* [device.toggle()] *)
  | PcWait       (* inside [stop_event.wait(interval)] *)
  | PcOff        (* [device.off()] after the loop *)
  | PcDone.      (* the thread has ended *)

#[global] Instance PulsePc_eq_dec : EqDecision PulsePc.
Proof. solve_decision. Defined.

Record PulseThread := {
  th_device : nat;        (* the [device] argument, a heap index *)
  th_interval : Q;        (* the [interval] argument, in seconds *)
  th_stop_event : bool;   (* [stop_event.is_set()] *)
  th_pc : PulsePc
}.

(** ** The world: the page, the objects it created, the file *)

Record World := {
  heap : list GZDevice;            (* every gpiozero object constructed *)
  threads : list PulseThread;      (* every thread started *)
  active_devices : gmap Z nat;     (* bcm pin -> heap index *)
  pulse_threads : gmap Z nat;      (* bcm pin -> thread index *)
  persistent_pins : PinStates;
  state_file : option PinStates    (* gpio_state.json; [None]: no file *)
}.

Definition set_heap (h : list GZDevice) (w : World) : World :=
  {| heap := h; threads := threads w; active_devices := active_devices w;
     pulse_threads := pulse_threads w; persistent_pins := persistent_pins w;
     state_file := state_file w |}.
Definition set_threads (t : list PulseThread) (w : World) : World :=
  {| heap := heap w; threads := t; active_devices := active_devices w;
     pulse_threads := pulse_threads w; persistent_pins := persistent_pins w;
     state_file := state_file w |}.
Definition set_active_devices (a : gmap Z nat) (w : World) : World :=
  {| heap := heap w; threads := threads w; active_devices := a;
     pulse_threads := pulse_threads w; persistent_pins := persistent_pins w;
     state_file := state_file w |}.
Definition set_pulse_threads (p : gmap Z nat) (w : World) : World :=
  {| heap := heap w; threads := threads w; active_devices := active_devices w;
     pulse_threads := p; persistent_pins := persistent_pins w;
     state_file := state_file w |}.
Definition set_persistent_pins (p : PinStates) (w : World) : World :=
  {| heap := heap w; threads := threads w; active_devices := active_devices w;
     pulse_threads := pulse_threads w; persistent_pins := p;
     state_file := state_file w |}.
Definition set_state_file (f : option PinStates) (w : World) : World :=
  {| heap := heap w; threads := threads w; active_devices := active_devices w;
     pulse_threads := pulse_threads w; persistent_pins := persistent_pins w;
     state_file := f |}.

(** ** What the page cannot decide: the driver, the disk, the scheduler *)

Record Environment := {
  (* the module global set by the guarded import of gpiozero *)
  GPIO_AVAILABLE : bool;
  (* [LED(pin)], [Button(pin)], [PWMLED(pin)] returns instead of raising,
     given the objects that exist *)
  constructor_ok : list GZDevice -> Z -> PinMode -> bool;
  (* [device.close()] returns instead of raising *)
  close_ok : list GZDevice -> nat -> bool;
  (* opening the state file for writing and dumping into it succeeds *)
  write_ok : option PinStates -> PinStates -> bool;
  (* how many steps a signalled thread completes before
     [join(timeout=1.0)] gives up *)
  join_steps : list PulseThread -> nat -> nat;
  (* [Button.is_pressed] of the button on a pin: the level of the input *)
  is_pressed : Z -> bool
}.

(** ** Exceptions and the state-and-exception monad *)

Inductive Exn :=
  | GPIOZeroError   (* raised by gpiozero: constructor, close, closed device *)
  | IOError
  | KeyError
  | RuntimeError
  | TypeError
  | ValueError.

#[global] Instance Exn_eq_dec : EqDecision Exn.
Proof. solve_decision. Defined.

Inductive Outcome (A : Type) := Ret (a : A) | Raise (e : Exn).
Arguments Ret {A} a.
Arguments Raise {A} e.

(** A statement runs in a world and leaves a world, whether it returns
    or raises. *)
Definition M (A : Type) : Type := World -> Outcome A * World.

Definition ret {A} (a : A) : M A := fun w => (Ret a, w).
Definition raise {A} (e : Exn) : M A := fun w => (Raise e, w).
Definition bind {A B} (m : M A) (k : A -> M B) : M B :=
  fun w => match m w with
           | (Ret a, w') => k a w'
           | (Raise e, w') => (Raise e, w')
           end.
(** [try: m  except <classes> as e: h e]; an exception outside the named
    classes goes on to the caller. *)
Definition try_except {A} (classes : Exn -> bool) (m : M A) (h : Exn -> M A) : M A :=
  fun w => match m w with
           | (Ret a, w') => (Ret a, w')
           | (Raise e, w') => if classes e then h e w' else (Raise e, w')
           end.
(** [except Exception] *)
Definition Exception : Exn -> bool := fun _ => true.
(** [except IOError] *)
Definition only_IOError : Exn -> bool :=
  fun e => match e with IOError => true | _ => false end.
Definition gets {A} (f : World -> A) : M A := fun w => (Ret (f w), w).
Definition modify (f : World -> World) : M unit := fun w => (Ret tt, f w).
Definition pass : M unit := ret tt.

Declare Scope py_scope.
Delimit Scope py_scope with py.
Notation "x <- m ;; k" := (bind m (fun x => k))
  (at level 100, m at next level, right associativity) : py_scope.
Notation "m ;; k" := (bind m (fun _ => k))
  (at level 100, right associativity) : py_scope.
Local Open Scope py_scope.

(** The world a statement leaves behind. *)
Definition exec {A} (m : M A) (w : World) : World := snd (m w).

(** ** Numbers and strings of the Python runtime *)

(** [round(x, 4)]: to the nearest multiple of 1/10000, a tie to the even
    one. *)
Definition round4 (x : Q) : Q :=
  let n := (Qnum x * 10000)%Z in
  let d := Z.pos (Qden x) in
  let fl := (n / d)%Z in
  let r := (n mod d)%Z in
  let k := if (2 * r <? d)%Z then fl
           else if (d <? 2 * r)%Z then (fl + 1)%Z
           else if Z.even fl then fl else (fl + 1)%Z in
  Qred (Qmake k 10000).

Definition lower_ascii (c : ascii) : ascii :=
  let n := nat_of_ascii c in
  if (Nat.leb 65 n && Nat.leb n 90)%bool then ascii_of_nat (n + 32) else c.

(** [str.lower()] on the ASCII range. *)
Fixpoint lower (s : string) : string :=
  match s with
  | EmptyString => EmptyString
  | String c rest => String (lower_ascii c) (lower rest)
  end.

(** [str(e)] of an exception; the text gpiozero gives is not part of the
    page, the class name stands for it. *)
Definition exn_text (e : Exn) : string :=
  match e with
  | GPIOZeroError => "GPIOZeroError"
  | IOError => "IOError"
  | KeyError => "KeyError"
  | RuntimeError => "RuntimeError"
  | TypeError => "TypeError"
  | ValueError => "ValueError"
  end.

(** ** gpiozero operations on heap objects *)

(** [on], [off] and [toggle] of an [LED]; gpiozero raises on a closed
    device. *)
Definition led_write (d : nat) (f : bool -> bool) : M unit :=
  fun w => match heap w !! d with
           | Some {| obj := LED p lit; closed := false |} =>
               (Ret tt,
                set_heap (<[d := {| obj := LED p (f lit); closed := false |}]> (heap w)) w)
           | _ => (Raise GPIOZeroError, w)
           end.
Definition device_on (d : nat) : M unit := led_write d (fun _ => true).
Definition device_off (d : nat) : M unit := led_write d (fun _ => false).
Definition device_toggle (d : nat) : M unit := led_write d negb.

(** [device.value = v] of a [PWMLED]; gpiozero refuses a value outside
    [0, 1]. *)
Definition pwm_write (d : nat) (v : Q) : M unit :=
  fun w => match heap w !! d with
           | Some {| obj := PWMLED p _; closed := false |} =>
               if (Qle_bool 0 v && Qle_bool v 1)%bool
               then (Ret tt,
                     set_heap (<[d := {| obj := PWMLED p v; closed := false |}]> (heap w)) w)
               else (Raise GPIOZeroError, w)
           | _ => (Raise GPIOZeroError, w)
           end.

(** [float(saved_state)]: the texts ["HIGH"] and ["LOW"] raise
    [ValueError], a missing state ([None]) raises [TypeError]. *)
Definition float_of (s : option SavedState) : M Q :=
  match s with
  | Some (Number q) => ret q
  | Some _ => raise ValueError
  | None => raise TypeError
  end.

Definition mark_closed (d : nat) (h : list GZDevice) : list GZDevice :=
  match h !! d with
  | Some dv => <[d := {| obj := obj dv; closed := true |}]> h
  | None => h
  end.

(** [pin_display_widgets[bcm_pin]]: a [KeyError] for a pin without a
    widget.  What is then done with the widget is drawing only. *)
Definition widget (bcm_pin : Z) : M unit :=
  if bool_decide (bcm_pin ∈ pin_display_widgets) then pass else raise KeyError.

Definition isinstance_opt (cls : GZDevice -> bool) (dv : option GZDevice) : bool :=
  match dv with Some dv => cls dv | None => false end.
Definition type_name_opt (dv : option GZDevice) : string :=
  match dv with Some dv => type_name dv | None => "NoneType" end.

(** [isinstance(x, cls)] on a heap index. *)
Definition isinstance (cls : GZDevice -> bool) (d : nat) (w : World) : bool :=
  match heap w !! d with Some dv => cls dv | None => false end.

Inductive ThreadEvent :=
  | EvToggle (d : nat)
  | EvSleep (timeout : Q) (signalled : bool)
  | EvOff (d : nat).

Definition with_pc (th : PulseThread) (pc : PulsePc) : PulseThread :=
  {| th_device := th_device th; th_interval := th_interval th;
     th_stop_event := th_stop_event th; th_pc := pc |}.

(** Thread [tid] moves on to program point [pc]. *)
Definition goto (tid : nat) (pc : PulsePc) (w : World) : World :=
  match threads w !! tid with
  | Some th => set_threads (<[tid := with_pc th pc]> (threads w)) w
  | None => w
  end.

Definition signalled (th : PulseThread) : PulseThread :=
  {| th_device := th_device th; th_interval := th_interval th;
     th_stop_event := true; th_pc := th_pc th |}.

(** [stop_event.set()] *)
Definition set_stop_event (tid : nat) : M unit :=
  modify (fun w =>
    match threads w !! tid with
    | Some th => set_threads (<[tid := signalled th]> (threads w)) w
    | None => w
    end).

Section GPIOPage.

Variable env : Environment.

(** ** [_pulse_loop], one step at a time *)

(** One atomic step of thread [tid], with the event it performs.  A
    [toggle] that raises (the device was closed under the thread) enters
    the handler, whose [device.off()] raises again: the thread ends. *)
Definition thread_step (tid : nat) (w : World) : option ThreadEvent * World :=
  match threads w !! tid with
  | None => (None, w)
  | Some th =>
      match th_pc th with
      | PcStart =>
          if (GPIO_AVAILABLE env && isinstance is_LED (th_device th) w)%bool
          then (None, goto tid PcTest w)
          else (None, goto tid PcDone w)
      | PcTest =>
          if th_stop_event th then (None, goto tid PcOff w)
          else (None, goto tid PcToggle w)
      | PcToggle =>
          match device_toggle (th_device th) w with
          | (Ret _, w') => (Some (EvToggle (th_device th)), goto tid PcWait w')
          | (Raise _, w') => (None, goto tid PcDone w')
          end
      | PcWait =>
          (Some (EvSleep (th_interval th) (th_stop_event th)), goto tid PcTest w)
      | PcOff =>
          match device_off (th_device th) w with
          | (Ret _, w') => (Some (EvOff (th_device th)), goto tid PcDone w')
          | (Raise _, w') => (None, goto tid PcDone w')
          end
      | PcDone => (None, w)
      end
  end.

Fixpoint run_thread (n : nat) (tid : nat) (w : World) : list ThreadEvent * World :=
  match n with
  | O => ([], w)
  | S n' =>
      let '(ev, w1) := thread_step tid w in
      let '(evs, w2) := run_thread n' tid w1 in
      (match ev with Some e => e :: evs | None => evs end, w2)
  end.

(** [thread.join(timeout=1.0)]: the thread runs for as long as the
    scheduler lets it within the timeout. *)
Definition join (tid : nat) : M unit :=
  modify (fun w => snd (run_thread (join_steps env (threads w) tid) tid w)).

(** ** Pulses *)

Definition is_pin_pulsing (bcm_pin : Z) (w : World) : bool :=
  bool_decide (is_Some (pulse_threads w !! bcm_pin)).

Definition stop_pulse (bcm_pin : Z) : M unit :=
  t <- gets (fun w => pulse_threads w !! bcm_pin) ;;
  match t with
  | Some tid =>
      set_stop_event tid ;;
      join tid ;;
      modify (fun w => set_pulse_threads (delete bcm_pin (pulse_threads w)) w) ;;
      dev <- gets (fun w => active_devices w !! bcm_pin) ;;
      match dev with
      | Some d =>
          is_led <- gets (fun w => (GPIO_AVAILABLE env && isinstance is_LED d w)%bool) ;;
          if is_led then try_except Exception (device_off d) (fun _ => pass)
          else pass
      | None => pass
      end
  | None => pass
  end.

Definition start_pulse (bcm_pin : Z) (device : nat) (interval : Q) : M unit :=
  stop_pulse bcm_pin ;;
  tid <- gets (fun w => length (threads w)) ;;
  modify (fun w => set_threads (threads w ++
            [{| th_device := device; th_interval := interval;
                th_stop_event := false; th_pc := PcStart |}]) w) ;;
  modify (fun w => set_pulse_threads (<[bcm_pin := tid]> (pulse_threads w)) w).

(** ** Persistence *)

(** The record [save_persistent_states] writes for a pin: a copy of the
    in-memory one with ["state"] read from the device ([PWMLED] is tested
    first, an input has no state to save). *)
Definition with_state (dv : option GZDevice) (state_info : PinRecord) : PinRecord :=
  match dv with
  | Some {| obj := PWMLED _ v |} =>
      {| is_persistent := is_persistent state_info; rec_mode := rec_mode state_info;
         rec_state := Some (Number (round4 v)) |}
  | Some {| obj := LED _ lit |} =>
      {| is_persistent := is_persistent state_info; rec_mode := rec_mode state_info;
         rec_state := Some (if lit then HIGH else LOW) |}
  | _ => state_info
  end.

(** The loop over [persistent_pins.keys()] that fills [pins_to_save]. *)
Fixpoint collect_pins (w : World) (items : PinStates) (pins_to_save : PinStates) : PinStates :=
  match items with
  | [] => pins_to_save
  | (bcm_pin, state_info) :: rest =>
      collect_pins w rest
        match active_devices w !! bcm_pin with
        | Some d => dict_set bcm_pin (with_state (heap w !! d) state_info) pins_to_save
        | None => pins_to_save
        end
  end.

(** [open(path, 'w')] and [json.dump]: the whole file is replaced; when
    the file cannot be written it is left as it was. *)
Definition write_state_file (pins : PinStates) : M unit :=
  fun w => if write_ok env (state_file w) pins
           then (Ret tt, set_state_file (Some pins) w)
           else (Raise IOError, w).

Definition pins_to_save (w : World) : PinStates :=
  collect_pins w (persistent_pins w) [].

Definition save_persistent_states : M unit :=
  if negb (GPIO_AVAILABLE env) then pass
  else
    pins <- gets pins_to_save ;;
    try_except only_IOError (write_state_file pins) (fun _ => pass).

Definition is_pin_persistent (bcm_pin : Z) (w : World) : bool :=
  dict_contains bcm_pin (persistent_pins w).

Definition set_pin_persistence (bcm_pin : Z) (persistent : bool) : M unit :=
  (if persistent
   then modify (fun w => set_persistent_pins
                  (dict_set bcm_pin {| is_persistent := true; rec_mode := None;
                                       rec_state := None |} (persistent_pins w)) w)
   else modify (fun w => set_persistent_pins (dict_pop bcm_pin (persistent_pins w)) w)) ;;
  save_persistent_states.

(** ** Release and setup *)

(** [device.close()] *)
Definition device_close (d : nat) : M unit :=
  fun w => if close_ok env (heap w) d
           then (Ret tt, set_heap (mark_closed d (heap w)) w)
           else (Raise GPIOZeroError, w).

Definition cleanup_pin (bcm_pin : Z) : M unit :=
  stop_pulse bcm_pin ;;
  dev <- gets (fun w => active_devices w !! bcm_pin) ;;
  match dev with
  | Some d =>
      try_except Exception
        ((if GPIO_AVAILABLE env then device_close d else pass) ;;
         modify (fun w => set_active_devices (delete bcm_pin (active_devices w)) w))
        (fun _ => pass)
  | None => pass
  end ;;
  modify (fun w => set_persistent_pins (dict_pop bcm_pin (persistent_pins w)) w) ;;
  save_persistent_states.

(** [LED(bcm_pin)], [Button(bcm_pin)], [PWMLED(bcm_pin)] *)
Definition construct (mode : PinMode) (bcm_pin : Z) : M nat :=
  fun w => if constructor_ok env (heap w) bcm_pin mode
           then (Ret (length (heap w)), set_heap (heap w ++ [new_device mode bcm_pin]) w)
           else (Raise GPIOZeroError, w).

(** [persistent_pins[bcm_pin]['mode'] = mode.name] *)
Definition record_mode (bcm_pin : Z) (mode : PinMode) : M unit :=
  r <- gets (fun w => dict_get bcm_pin (persistent_pins w)) ;;
  match r with
  | Some state_info =>
      modify (fun w => set_persistent_pins
                (dict_set bcm_pin {| is_persistent := is_persistent state_info;
                                     rec_mode := Some (mode_name mode);
                                     rec_state := rec_state state_info |}
                          (persistent_pins w)) w)
  | None => raise KeyError
  end.

(** The first statement of [setup_pin]: a pin that holds a device of a
    known class is left as it is ("already configured. Skipping setup."),
    any other pin goes through [cleanup_pin]. *)
Definition release_unless_configured (bcm_pin : Z) : M unit :=
  dev <- gets (fun w => active_devices w !! bcm_pin) ;;
  match dev with
  | Some d =>
      (* [isinstance] against a tuple of [None]s is a [TypeError] *)
      if GPIO_AVAILABLE env then
        known <- gets (fun w => (isinstance is_LED d w || isinstance is_PWMLED d w
                                 || isinstance is_Button d w)%bool) ;;
        if known then pass else cleanup_pin bcm_pin
      else raise TypeError
  | None => cleanup_pin bcm_pin
  end.

(** The body of the [try] of [setup_pin]: construct the device, register
    it, record the mode of a persistent pin, refresh the widget. *)
Definition create_and_register (bcm_pin : Z) (mode : PinMode) (from_load : bool) : M unit :=
  device <- match mode with
            | OUTPUT => d <- construct OUTPUT bcm_pin ;; widget bcm_pin ;; ret d
            | INPUT => construct INPUT bcm_pin
            | PWM => d <- construct PWM bcm_pin ;; widget bcm_pin ;; ret d
            end ;;
  modify (fun w => set_active_devices (<[bcm_pin := device]> (active_devices w)) w) ;;
  persistent <- gets (is_pin_persistent bcm_pin) ;;
  (if persistent
   then record_mode bcm_pin mode ;;
        (if from_load then pass else save_persistent_states)
   else pass) ;;
  widget bcm_pin.

Definition setup_pin (bcm_pin : Z) (mode : PinMode) (from_load : bool) : M unit :=
  release_unless_configured bcm_pin ;;
  if negb (GPIO_AVAILABLE env) then pass
  else try_except Exception
         (create_and_register bcm_pin mode from_load)
         (fun _ => cleanup_pin bcm_pin).

(** ** The automation request handled by the page *)

Definition handle_ai_gpio_request (bcm_pin : Z) (state : string) : M (bool * string) :=
  if negb (GPIO_AVAILABLE env) then ret (false, "GPIO libraries are not available.")
  else
    dev <- gets (fun w => active_devices w !! bcm_pin) ;;
    match dev with
    | None =>
        ret (false, "Pin " +:+ pretty bcm_pin +:+
                    " is not currently configured. Please set it to OUTPUT mode first.")
    | Some d =>
        dv <- gets (fun w => heap w !! d) ;;
        if negb (isinstance_opt is_LED dv)
        then ret (false, "Pin " +:+ pretty bcm_pin +:+
                         " is not configured as an OUTPUT. Current mode is " +:+
                         type_name_opt dv +:+ ".")
        else
          try_except Exception
            (msg <- (if String.eqb (lower state) "high"
                     then device_on d ;;
                          ret (Some ("Successfully set BCM Pin " +:+ pretty bcm_pin +:+ " to HIGH."))
                     else if String.eqb (lower state) "low"
                     then device_off d ;;
                          ret (Some ("Successfully set BCM Pin " +:+ pretty bcm_pin +:+ " to LOW."))
                     else ret None) ;;
             match msg with
             | Some msg => save_persistent_states ;; ret (true, msg)
             | None => ret (false, "Invalid state '" +:+ state +:+ "'. Use 'high' or 'low'.")
             end)
            (fun e => ret (false, "Failed to set state for BCM Pin " +:+ pretty bcm_pin +:+
                                  ": " +:+ exn_text e))
    end.

(** ** Restoring at start-up *)

(** The body of the loop of [_load_pin_states] for one item. *)
Definition restore_pin (bcm_pin : Z) (state_info : PinRecord) : M unit :=
  match rec_mode state_info with
  | Some mode_str =>
      if String.eqb mode_str "" then pass
      else
        try_except Exception
          (mode <- match PinMode_by_name mode_str with
                   | Some m => ret m
                   | None => raise KeyError
                   end ;;
           setup_pin bcm_pin mode true ;;
           dev <- gets (fun w => active_devices w !! bcm_pin) ;;
           match dev with
           | Some d =>
               is_led <- gets (isinstance is_LED d) ;;
               is_pwm <- gets (isinstance is_PWMLED d) ;;
               if (bool_decide (mode = OUTPUT) && is_led)%bool
               then match rec_state state_info with
                    | Some HIGH => device_on d
                    | _ => device_off d
                    end
               else if (bool_decide (mode = PWM) && is_pwm)%bool
               then v <- float_of (rec_state state_info) ;; pwm_write d v
               else pass
           | None => pass
           end)
          (fun _ => pass)
  | None => pass
  end.

(** [for bcm_pin, state_info in self.persistent_pins.items()]: before it
    hands out the next item, and before it stops, the iterator compares
    the size of the dictionary with the size it started from and raises
    [RuntimeError] when they differ. *)
Fixpoint restore_loop (size : nat) (items : PinStates) : M unit :=
  now <- gets (fun w => length (persistent_pins w)) ;;
  if negb (Nat.eqb now size) then raise RuntimeError
  else match items with
       | [] => pass
       | (bcm_pin, state_info) :: rest =>
           restore_pin bcm_pin state_info ;; restore_loop size rest
       end.

(** [{int(k): v for k, v in json.load(f).items()}] *)
Definition load_json (content : PinStates) : PinStates :=
  foldl (fun d kv => dict_set (fst kv) (snd kv) d) [] content.

Definition _load_pin_states : M unit :=
  if negb (GPIO_AVAILABLE env) then pass
  else
    try_except only_IOError
      (f <- gets state_file ;;
       match f with
       | Some content =>
           modify (set_persistent_pins (load_json content)) ;;
           items <- gets persistent_pins ;;
           restore_loop (length items) items
       | None => pass
       end)
      (fun _ => pass).

(** [GPIOPage.__init__] in a new process: empty tables, then
    [_load_pin_states]; only the file is left of the previous run. *)
Definition new_process (file : option PinStates) : World :=
  {| heap := []; threads := []; active_devices := ∅; pulse_threads := ∅;
     persistent_pins := []; state_file := file |}.

Definition GPIOPage_init (file : option PinStates) : Outcome unit * World :=
  _load_pin_states (new_process file).

(** ** The status shown for a pin: [PinDisplayWidget.update_status] *)

(** [int(x * 100)] *)
Definition percent (x : Q) : Z := Z.quot (Qnum x * 100) (Z.pos (Qden x)).

(** The texts of [mode_lbl] and [state_lbl] for
    [update_status(device=active_devices.get(bcm_pin),
                   is_pulsing=is_pin_pulsing(bcm_pin))]. *)
Definition update_status (bcm_pin : Z) (w : World) : string * string :=
  match active_devices w !! bcm_pin with
  | None => ("?", "?")
  | Some d =>
      if negb (GPIO_AVAILABLE env) then ("?", "?")
      else match heap w !! d with
           | Some {| obj := PWMLED _ v |} => ("PWM", pretty (percent v) +:+ "%")
           | Some {| obj := LED _ lit |} =>
               ("OUT", if is_pin_pulsing bcm_pin w then "PULSE"
                       else if lit then "HIGH" else "LOW")
           | Some {| obj := Button p |} =>
               ("IN", if is_pressed env p then "HIGH" else "LOW")
           | None => ("ERR", "UNK")
           end
  end.

(** ** The automation hub of [main.py] *)

Record MainApplication := {
  pages_GPIOPage : bool;     (* ["GPIOPage" in self.pages] *)
  world : World
}.

(** [create_all_pages] for the GPIO page: a page whose constructor
    raises is logged and left out of [self.pages]. *)
Definition create_all_pages (file : option PinStates) : MainApplication :=
  match GPIOPage_init file with
  | (Ret _, w) => {| pages_GPIOPage := true; world := w |}
  | (Raise _, w) => {| pages_GPIOPage := false; world := w |}
  end.

Definition request_gpio_action (bcm_pin : Z) (state : string) (app : MainApplication)
  : Outcome (bool * string) * MainApplication :=
  if pages_GPIOPage app
  then let '(r, w) := handle_ai_gpio_request bcm_pin state (world app) in
       (r, {| pages_GPIOPage := true; world := w |})
  else (Ret (false, "GPIO Control module is not loaded."), app).



End GPIOPage.

(** ** Two environments to run the page in *)

Definition pin_of (dv : GZDevice) : Z :=
  match obj dv with LED p _ | PWMLED p _ | Button p => p end.

(** gpiozero reserves a pin for the open device that holds it. *)
Definition pin_in_use (h : list GZDevice) (p : Z) : bool :=
  existsb (fun dv => (negb (closed dv) && Z.eqb (pin_of dv) p)%bool) h.

(** The driver on the board: a constructor raises on a pin that is not
    on the header or that an open device holds; nothing else fails and a
    signalled thread ends within the join. *)
Definition board : Environment :=
  {| GPIO_AVAILABLE := true;
     constructor_ok := fun h p _ =>
       (negb (pin_in_use h p) && bool_decide (is_Some (BCM_PIN_MAP !! p)))%bool;
     close_ok := fun _ _ => true;
     write_ok := fun _ _ => true;
     join_steps := fun _ _ => 4%nat;
     is_pressed := fun _ => false |}.

(** A stub driver that never refuses anything. *)
Definition permissive : Environment :=
  {| GPIO_AVAILABLE := true;
     constructor_ok := fun _ _ _ => true;
     close_ok := fun _ _ => true;
     write_ok := fun _ _ => true;
     join_steps := fun _ _ => 4%nat;
     is_pressed := fun _ => false |}.

(** No gpiozero on the machine. *)
Definition headless : Environment :=
  {| GPIO_AVAILABLE := false;
     constructor_ok := fun _ _ _ => false;
     close_ok := fun _ _ => false;
     write_ok := fun _ _ => true;
     join_steps := fun _ _ => 0%nat;
     is_pressed := fun _ => false |}.

(** ** Notions used to state the properties *)

(** A device with the value of an [LED] forgotten: what a pulse thread
    cannot change about an object. *)
Definition erase_lit (dv : GZDevice) : GZDevice :=
  match obj dv with
  | LED p _ => {| obj := LED p false; closed := closed dv |}
  | _ => dv
  end.

(** Two worlds that differ at most in what a pulse thread changes: the
    values of the LEDs and the threads themselves. *)
Record same_page (w w' : World) : Prop := {
  sp_active : active_devices w' = active_devices w;
  sp_pulse : pulse_threads w' = pulse_threads w;
  sp_persistent : persistent_pins w' = persistent_pins w;
  sp_file : state_file w' = state_file w;
  sp_heap : erase_lit <$> heap w' = erase_lit <$> heap w;
  sp_threads : length (threads w') = length (threads w)
}.





(** The answers of [handle_ai_gpio_request], under the names the
    specification gives to the failures. *)
Definition GpioUnavailable : bool * string :=
  (false, "GPIO libraries are not available.").
Definition NotConfigured (bcm_pin : Z) : bool * string :=
  (false, "Pin " +:+ pretty bcm_pin +:+
          " is not currently configured. Please set it to OUTPUT mode first.").
Definition WrongCapability (bcm_pin : Z) (dv : option GZDevice) : bool * string :=
  (false, "Pin " +:+ pretty bcm_pin +:+
          " is not configured as an OUTPUT. Current mode is " +:+ type_name_opt dv +:+ ".").
Definition Applied (bcm_pin : Z) (high : bool) : bool * string :=
  (true, "Successfully set BCM Pin " +:+ pretty bcm_pin +:+ " to " +:+
         (if high then "HIGH" else "LOW") +:+ ".").

(** The [state] argument of a request for a boolean level. *)
Definition state_text (high : bool) : string := if high then "high" else "low".



(** The world after the release step of [cleanup_pin]. *)
Definition release_step (env : Environment) (a : Z) (w : World) : World :=
  match active_devices w !! a with
  | Some d =>
      if GPIO_AVAILABLE env
      then if close_ok env (heap w) d
           then set_active_devices (delete a (active_devices w))
                  (set_heap (mark_closed d (heap w)) w)
           else w
      else set_active_devices (delete a (active_devices w)) w
  | None => w
  end.

(** A pin on which [cleanup_pin] has nothing left to do. *)
Definition settled (env : Environment) (a : Z) (w : World) : Prop :=
  pulse_threads w !! a = None /\
  match active_devices w !! a with
  | None => True
  | Some d => GPIO_AVAILABLE env = true /\ close_ok env (heap w) d = false
  end /\
  dict_get a (persistent_pins w) = None /\
  save_persistent_states env w = (Ret tt, w).

(** A file content that holds exactly the persistent pins with a device. *)
Definition only_active (w : World) (c : PinStates) : Prop :=
  forall a, is_Some (dict_get a c) <->
            is_Some (dict_get a (persistent_pins w)) /\ is_Some (active_devices w !! a).

(** ** Worlds to run the page from *)

Definition fresh : World := new_process None.

(** Pin 17 set up as an output in a new process. *)
Definition output17 (env : Environment) : World :=
  exec (setup_pin env 17 OUTPUT false) fresh.


(** ... or marked persistent. *)
Definition persistent17 (env : Environment) : World :=
  exec (set_pin_persistence env 17 true) (output17 env).


(** ** The output control window and the page going out of view *)

(** The keys of [OutputControlWindow.UNIT_CONVERSIONS], the values the
    units menu can take. *)
Inductive Units := Milliseconds | Seconds | Minutes.

Definition UNIT_CONVERSIONS (u : Units) (x : Q) : Q :=
  match u with
  | Milliseconds => (x / 1000)%Q
  | Seconds => x
  | Minutes => (x * 60)%Q
  end.

(** [_get_interval_in_seconds]; [entry] is [float(self.interval_entry.get())],
    [None] when [float] raises [ValueError].  The handler shows a dialog
    and raises the error again. *)
Definition _get_interval_in_seconds (entry : option Q) (units : Units) : M Q :=
  match entry with
  | None => raise ValueError
  | Some interval_val =>
      if Qle_bool interval_val 0 then raise ValueError
      else ret (UNIT_CONVERSIONS units interval_val)
  end.

Section Windows.

Variable env : Environment.

(** [OutputControlWindow._toggle_pulse] of the window for [bcm_pin] that
    holds [output_device]. *)
Definition _toggle_pulse (bcm_pin : Z) (output_device : nat) (entry : option Q)
    (units : Units) : M unit :=
  pulsing <- gets (is_pin_pulsing bcm_pin) ;;
  if pulsing then stop_pulse env bcm_pin
  else
    try_except Exception
      (ready <- gets (fun w => (GPIO_AVAILABLE env && isinstance is_LED output_device w)%bool) ;;
       if ready
       then interval <- _get_interval_in_seconds entry units ;;
            start_pulse env bcm_pin output_device interval
       else pass)
      (fun _ => pass).

(** [OutputControlWindow._toggle_and_save] *)
Definition _toggle_and_save (output_device : nat) : M unit :=
  device_toggle output_device ;;
  save_persistent_states env.

(** [OutputControlWindow.on_close] *)
Definition OutputControlWindow_on_close (bcm_pin : Z) : M unit :=
  pulsing <- gets (is_pin_pulsing bcm_pin) ;;
  (if pulsing then stop_pulse env bcm_pin else pass) ;;
  save_persistent_states env.

(** [for pin in keys: if not self.is_pin_persistent(pin): body(pin)] *)
Fixpoint for_non_persistent (keys : list Z) (body : Z -> M unit) : M unit :=
  match keys with
  | [] => pass
  | pin :: rest =>
      persistent <- gets (is_pin_persistent pin) ;;
      (if persistent then pass else body pin) ;;
      for_non_persistent rest body
  end.

(** [GPIOPage.on_hide].  [keys] lists the keys of a dictionary in the
    order Python iterates over them, which the key-indexed tables of the
    model do not record.  [stop_updates] and [close_active_toplevel] act
    on the widgets only. *)
Definition on_hide (keys : gmap Z nat -> list Z) : M unit :=
  save_persistent_states env ;;
  pulsing <- gets (fun w => keys (pulse_threads w)) ;;
  for_non_persistent pulsing (stop_pulse env) ;;
  active <- gets (fun w => keys (active_devices w)) ;;
  for_non_persistent active (cleanup_pin env).

End Windows.

(** The grid cell of the widget of a pin in [GPIOPage.__init__]:
    [(physical_pin - 1) // 2, (physical_pin - 1) % 2]. *)
Definition grid_cell (physical : Z) : Z * Z :=
  ((physical - 1) / 2, (physical - 1) mod 2).

(** A thread with its program point forgotten: what running a thread
    cannot change about any thread. *)
Definition erase_pc (th : PulseThread) : PulseThread := with_pc th PcStart.

(** ** The radio of [main.py]: the playlist and the track index *)

(** A [pathlib.Path] of the playlist, with what the player reads of it. *)
Record Path := { stem : string; as_posix : string }.

(** The radio fields of [MainApplication] that the track methods read or
    write in the calling thread.  The thread that [radio_play_track]
    starts to read the metadata of the file, and which later replaces
    title, artist and duration, is not part of the model. *)
Record Radio := {
  radio_player : bool;                       (* [self.radio_player] is set *)
  radio_playlist : list Path;
  radio_current_track_idx : Z;
  radio_current_track_title : string;
  radio_current_track_artist : string;
  radio_current_track_duration_ms : Z;
  _radio_current_media : option string       (* the path given to [media_new] *)
}.

(** [playlist[idx]] for an index already checked to be in range. *)
Definition track_at (idx : Z) (playlist : list Path) : option Path :=
  playlist !! Z.to_nat idx.

Definition radio_play_track (r : Radio) : Radio :=
  let len := Z.of_nat (length (radio_playlist r)) in
  if (negb (radio_player r) || bool_decide (radio_playlist r = [])
      || negb (Z.leb 0 (radio_current_track_idx r) && Z.ltb (radio_current_track_idx r) len))%bool
  then r
  else match track_at (radio_current_track_idx r) (radio_playlist r) with
       | Some track_path =>
           {| radio_player := radio_player r;
              radio_playlist := radio_playlist r;
              radio_current_track_idx := radio_current_track_idx r;
              radio_current_track_title := stem track_path;
              radio_current_track_artist := "Loading...";
              radio_current_track_duration_ms := 0;
              _radio_current_media := Some (as_posix track_path) |}
       | None => r
       end.

Definition set_track_idx (idx : Z) (r : Radio) : Radio :=
  {| radio_player := radio_player r;
     radio_playlist := radio_playlist r;
     radio_current_track_idx := idx;
     radio_current_track_title := radio_current_track_title r;
     radio_current_track_artist := radio_current_track_artist r;
     radio_current_track_duration_ms := radio_current_track_duration_ms r;
     _radio_current_media := _radio_current_media r |}.

Definition radio_next_track (r : Radio) : Radio :=
  if (negb (radio_player r) || bool_decide (radio_playlist r = []))%bool then r
  else
    let len := Z.of_nat (length (radio_playlist r)) in
    radio_play_track (set_track_idx ((radio_current_track_idx r + 1) mod len) r).

Definition radio_prev_track (r : Radio) : Radio :=
  if (negb (radio_player r) || bool_decide (radio_playlist r = []))%bool then r
  else
    let len := Z.of_nat (length (radio_playlist r)) in
    radio_play_track (set_track_idx ((radio_current_track_idx r - 1 + len) mod len) r).

(** ** More pages to run *)



(** The persistent pin 17, pulsed every half second. *)
Definition persistent_pulsing17 (env : Environment) : World :=
  exec (start_pulse env 17 0%nat (Qmake 1 2)) (persistent17 env).

(** A state file that records pin 17 with its mode. *)
Definition saved17 : PinStates :=
  [(17, {| is_persistent := true; rec_mode := Some "OUTPUT"; rec_state := Some HIGH |})].

(** The keys of a registry, in the order of the table of the model. *)
Definition dict_keys (m : gmap Z nat) : list Z := (map_to_list m).*1.

(** A player with three tracks, on the last one. *)
Definition radio3 : Radio :=
  {| radio_player := true;
     radio_playlist := [ {| stem := "a"; as_posix := "music/a.mp3" |};
                         {| stem := "b"; as_posix := "music/b.mp3" |};
                         {| stem := "c"; as_posix := "music/c.mp3" |} ];
     radio_current_track_idx := 2;
     radio_current_track_title := "c";
     radio_current_track_artist := "Loading...";
     radio_current_track_duration_ms := 0;
     _radio_current_media := Some "music/c.mp3" |}.

(** * Properties *)


Lemma dict_get_pop_eq a d : dict_get a (dict_pop a d) = None.
Proof.
  induction d as [|[k v] d IH]; simpl; [done|].
  destruct (Z.eqb_spec a k) as [->|Hne]; [done|].
  simpl. destruct (Z.eqb_spec a k); [done|]. exact IH.
Qed.

Lemma dict_get_pop_ne a b d : a ≠ b -> dict_get a (dict_pop b d) = dict_get a d.
Proof.
  intros Hab. induction d as [|[k v] d IH]; simpl; [done|].
  destruct (Z.eqb_spec b k) as [->|Hne].
  - destruct (Z.eqb_spec a k); [done|]. exact IH.
  - simpl. destruct (Z.eqb_spec a k); [done|]. exact IH.
Qed.

Lemma dict_pop_absent a d : dict_get a d = None -> dict_pop a d = d.
Proof.
  induction d as [|[k v] d IH]; simpl; [done|].
  destruct (Z.eqb_spec a k); [done|]. intros H. by rewrite IH.
Qed.

Lemma dict_pop_pop a d : dict_pop a (dict_pop a d) = dict_pop a d.
Proof. apply dict_pop_absent, dict_get_pop_eq. Qed.

Lemma dict_get_set a b v d :
  dict_get a (dict_set b v d) = if Z.eqb a b then Some v else dict_get a d.
Proof.
  induction d as [|[k v'] d IH]; simpl.
  - by destruct (Z.eqb_spec a b).
  - destruct (Z.eqb_spec b k) as [->|Hne]; simpl.
    + by destruct (Z.eqb_spec a k).
    + destruct (Z.eqb_spec a k) as [->|Hak].
      * destruct (Z.eqb_spec k b); [congruence|done].
      * exact IH.
Qed.

Lemma collect_pins_get w a items acc :
  is_Some (dict_get a (collect_pins w items acc)) <->
  is_Some (dict_get a acc) \/
  (is_Some (dict_get a items) /\ is_Some (active_devices w !! a)).
Proof.
  revert acc. induction items as [|[k v] items IH]; intros acc; simpl.
  - split; [auto|]. intros [H|[H _]]; [done|]. by destruct H.
  - rewrite IH. destruct (Z.eqb_spec a k) as [->|Hne].
    + destruct (active_devices w !! k) as [d|] eqn:Hd.
      * rewrite dict_get_set, Z.eqb_refl. split; [|by eauto]. intros _.
        right. split; eauto.
      * split; [intros [H|[_ H]]; [by left|by destruct H]|].
        intros [H|[_ H]]; [by left|by destruct H].
    + destruct (active_devices w !! k) as [d|] eqn:Hd.
      * rewrite dict_get_set. destruct (Z.eqb_spec a k); [done|]. done.
      * done.
Qed.
Lemma same_page_refl w : same_page w w.
Proof. by split. Qed.

Lemma same_page_trans w1 w2 w3 : same_page w1 w2 -> same_page w2 w3 -> same_page w1 w3.
Proof. intros [] []. split; congruence. Qed.

Lemma led_write_same_page d f w : same_page w (snd (led_write d f w)).
Proof.
  unfold led_write. destruct (heap w !! d) as [[[p lit| |] []]|] eqn:Hd; simpl;
    try apply same_page_refl.
  split; simpl; try done.
  rewrite list_fmap_insert. apply list_insert_id.
  rewrite list_lookup_fmap, Hd. done.
Qed.

Lemma goto_same_page tid pc w : same_page w (goto tid pc w).
Proof.
  unfold goto. destruct (threads w !! tid); split; simpl; try done.
  apply length_insert.
Qed.

Section Properties.

Variable env : Environment.

Lemma thread_step_same_page tid w : same_page w (snd (thread_step env tid w)).
Proof.
  unfold thread_step. destruct (threads w !! tid) as [th|]; [|apply same_page_refl].
  destruct (th_pc th); simpl.
  - destruct (_ && _); apply goto_same_page.
  - destruct (th_stop_event th); apply goto_same_page.
  - unfold device_toggle.
    pose proof (led_write_same_page (th_device th) negb w) as H.
    destruct (led_write (th_device th) negb w) as [[]?]; simpl in *;
      (eapply same_page_trans; [exact H|apply goto_same_page]).
  - apply goto_same_page.
  - unfold device_off.
    pose proof (led_write_same_page (th_device th) (fun _ => false) w) as H.
    destruct (led_write _ _ w) as [[]?]; simpl in *;
      (eapply same_page_trans; [exact H|apply goto_same_page]).
  - apply same_page_refl.
Qed.

Lemma run_thread_same_page n tid w : same_page w (snd (run_thread env n tid w)).
Proof.
  revert w. induction n as [|n IH]; intros w; simpl; [apply same_page_refl|].
  pose proof (thread_step_same_page tid w) as H1.
  destruct (thread_step env tid w) as [ev w1]. simpl in H1.
  pose proof (IH w1) as H2. destruct (run_thread env n tid w1) as [evs w2].
  simpl in *. eapply same_page_trans; eauto.
Qed.

Lemma stop_pulse_returns a w : fst (stop_pulse env a w) = Ret tt.
Proof.
  unfold stop_pulse, bind, gets, modify, pass, ret, set_stop_event, join, try_except.
  simpl. destruct (pulse_threads w !! a) as [tid|]; [|done]. simpl.
  match goal with |- context [active_devices ?W !! a] => destruct (active_devices W !! a) end;
    [|done].
  simpl. match goal with |- context [if ?b then _ else _] => destruct b end; [|done].
  match goal with |- context [device_off ?d ?W] => destruct (device_off d W) as [[[]|]?] end; done.
Qed.

Lemma erase_lookup_LED (h h' : list GZDevice) d p lit c :
  erase_lit <$> h' = erase_lit <$> h ->
  h !! d = Some {| obj := LED p lit; closed := c |} ->
  exists lit', h' !! d = Some {| obj := LED p lit'; closed := c |}.
Proof.
  intros He Hd. apply (f_equal (fun l => l !! d)) in He.
  rewrite !list_lookup_fmap, Hd in He. simpl in He.
  destruct (h' !! d) as [[[p' lit'| |] c']|]; simpl in He; try discriminate.
  unfold erase_lit in He. simpl in He. injection He as -> ->. eauto.
Qed.

Lemma stop_pulse_noop a w : pulse_threads w !! a = None -> stop_pulse env a w = (Ret tt, w).
Proof.
  intros H. unfold stop_pulse, bind, gets. simpl. by rewrite H.
Qed.

(** What [stop_pulse] leaves of the page. *)
Lemma stop_pulse_frame a w :
  let w' := exec (stop_pulse env a) w in
  pulse_threads w' = delete a (pulse_threads w) /\
  active_devices w' = active_devices w /\
  persistent_pins w' = persistent_pins w /\
  state_file w' = state_file w /\
  erase_lit <$> heap w' = erase_lit <$> heap w /\
  length (threads w') = length (threads w).
Proof.
  unfold exec. destruct (pulse_threads w !! a) as [tid|] eqn:Ht.
  2:{ rewrite stop_pulse_noop by done. simpl. rewrite delete_id by done. done. }
  unfold stop_pulse, bind, gets, modify, pass, ret, set_stop_event, join, try_except.
  simpl. rewrite Ht. simpl.
  set (w1 := match threads w !! tid with Some _ => _ | None => w end).
  assert (same_page w w1) as H1.
  { subst w1. destruct (threads w !! tid); split; simpl; try done. apply length_insert. }
  pose proof (run_thread_same_page (join_steps env (threads w1) tid) tid w1) as H2.
  set (w2 := snd (run_thread env _ tid w1)) in *.
  pose proof (same_page_trans _ _ _ H1 H2) as [Ha Hp Hps Hf Hh Hl].
  set (w3 := set_pulse_threads _ w2).
  assert (pulse_threads w3 = delete a (pulse_threads w) /\
          active_devices w3 = active_devices w /\
          persistent_pins w3 = persistent_pins w /\
          state_file w3 = state_file w /\
          erase_lit <$> heap w3 = erase_lit <$> heap w /\
          length (threads w3) = length (threads w)) as H3.
  { subst w3. simpl. rewrite Hp. done. }
  destruct (active_devices w2 !! a) as [d|]; [|exact H3]. simpl.
  destruct (_ && _); [|exact H3]. simpl.
  pose proof (led_write_same_page d (fun _ => false) w3) as [Ha' Hp' Hps' Hf' Hh' Hl'].
  unfold device_off. destruct (led_write d _ w3) as [[[]|] w4]; simpl in *;
    destruct H3 as (?&?&?&?&?&?); repeat split; congruence.
Qed.

Lemma collect_pins_ext w w' items acc :
  active_devices w' = active_devices w -> heap w' = heap w ->
  collect_pins w' items acc = collect_pins w items acc.
Proof.
  intros Ha Hh. revert acc. induction items as [|[k v] items IH]; intros acc; simpl; [done|].
  by rewrite Ha, Hh, IH.
Qed.

Lemma save_eq w :
  save_persistent_states env w =
  (Ret tt, if (GPIO_AVAILABLE env && write_ok env (state_file w) (pins_to_save w))%bool
           then set_state_file (Some (pins_to_save w)) w else w).
Proof.
  unfold save_persistent_states. destruct (GPIO_AVAILABLE env); simpl; [|done].
  unfold bind, gets, try_except, write_state_file. simpl.
  by destruct (write_ok env (state_file w) (pins_to_save w)).
Qed.

Lemma save_idempotent w :
  save_persistent_states env (exec (save_persistent_states env) w) =
  (Ret tt, exec (save_persistent_states env) w).
Proof.
  unfold exec. rewrite (save_eq w). simpl.
  destruct (GPIO_AVAILABLE env) eqn:Hg; simpl.
  2:{ rewrite save_eq, Hg. done. }
  destruct (write_ok env (state_file w) (pins_to_save w)) eqn:Hw.
  - rewrite save_eq, Hg. simpl.
    assert (pins_to_save (set_state_file (Some (pins_to_save w)) w) = pins_to_save w) as ->.
    { unfold pins_to_save. simpl. by apply collect_pins_ext. }
    by destruct (write_ok env (Some (pins_to_save w)) (pins_to_save w)).
  - rewrite save_eq, Hg, Hw. done.
Qed.





Lemma cleanup_pin_eq a w :
  cleanup_pin env a w =
  save_persistent_states env
    (set_persistent_pins
       (dict_pop a (persistent_pins (release_step env a (exec (stop_pulse env a) w))))
       (release_step env a (exec (stop_pulse env a) w))).
Proof.
  unfold cleanup_pin, bind at 1. unfold exec.
  pose proof (stop_pulse_returns a w) as Hr.
  destruct (stop_pulse env a w) as [r w1]. simpl in Hr. subst r. simpl.
  unfold bind at 1. unfold gets at 1. unfold bind at 1. unfold release_step.
  destruct (active_devices w1 !! a) as [d|].
  - unfold try_except, bind, device_close, modify, pass, ret.
    destruct (GPIO_AVAILABLE env); simpl.
    + destruct (close_ok env (heap w1) d); simpl; done.
    + done.
  - unfold pass, ret. simpl. unfold bind, modify. done.
Qed.

Lemma cleanup_pin_returns a w : fst (cleanup_pin env a w) = Ret tt.
Proof. rewrite cleanup_pin_eq, save_eq. done. Qed.

Lemma cleanup_settles a w : settled env a (exec (cleanup_pin env a) w).
Proof.
  unfold exec. rewrite cleanup_pin_eq.
  destruct (stop_pulse_frame a w) as (Hp & Ha & Hps & Hf & Hh & Hl).
  set (w1 := exec (stop_pulse env a) w) in *.
  set (w2 := release_step env a w1).
  assert (pulse_threads w2 = pulse_threads w1) as Hp2.
  { subst w2. unfold release_step. destruct (active_devices w1 !! a); [|done].
    destruct (GPIO_AVAILABLE env); [destruct (close_ok _ _ _)|]; done. }
  assert (match active_devices w2 !! a with
          | None => True
          | Some d => GPIO_AVAILABLE env = true /\ close_ok env (heap w2) d = false
          end) as Ha2.
  { subst w2. unfold release_step. destruct (active_devices w1 !! a) as [d|] eqn:Hd.
    - destruct (GPIO_AVAILABLE env) eqn:Hg.
      + destruct (close_ok env (heap w1) d) eqn:Hc; simpl.
        * by rewrite lookup_delete_eq.
        * by rewrite Hd.
      + simpl. by rewrite lookup_delete_eq.
    - by rewrite Hd. }
  set (w3 := set_persistent_pins (dict_pop a (persistent_pins w2)) w2).
  change (settled env a (exec (save_persistent_states env) w3)).
  pose proof (save_idempotent w3) as Hs.
  set (w4 := exec (save_persistent_states env) w3) in *.
  assert (pulse_threads w4 = pulse_threads w1 /\ active_devices w4 = active_devices w2 /\
          heap w4 = heap w2 /\ persistent_pins w4 = dict_pop a (persistent_pins w2)) as (E1&E2&E3&E4).
  { subst w4. unfold exec. rewrite save_eq. simpl. destruct (_ && _); simpl; done. }
  split; [|split; [|split]].
  - rewrite E1, Hp. apply lookup_delete_eq.
  - by rewrite E2, E3.
  - rewrite E4. apply dict_get_pop_eq.
  - exact Hs.
Qed.














Lemma run_thread_S n tid w :
  run_thread env (S n) tid w =
  let '(ev, w1) := thread_step env tid w in
  let '(evs, w2) := run_thread env n tid w1 in
  (match ev with Some e => e :: evs | None => evs end, w2).
Proof. done. Qed.


Lemma stop_pulse_switches_off a tid d p lit w :
  GPIO_AVAILABLE env = true ->
  pulse_threads w !! a = Some tid ->
  active_devices w !! a = Some d ->
  heap w !! d = Some {| obj := LED p lit; closed := false |} ->
  heap (exec (stop_pulse env a) w) !! d = Some {| obj := LED p false; closed := false |}.
Proof.
  intros Hg Ht Ha Hd. unfold exec.
  unfold stop_pulse, bind, gets, modify, pass, ret, set_stop_event, join, try_except.
  simpl. rewrite Ht. simpl.
  set (w1 := match threads w !! tid with Some _ => _ | None => w end).
  assert (same_page w w1) as H1.
  { subst w1. destruct (threads w !! tid); split; simpl; try done. apply length_insert. }
  pose proof (run_thread_same_page (join_steps env (threads w1) tid) tid w1) as H2.
  set (w2 := snd (run_thread env _ tid w1)) in *.
  pose proof (same_page_trans _ _ _ H1 H2) as [Ha2 Hp2 Hps2 Hf2 Hh2 Hl2].
  rewrite Ha2, Ha. simpl. rewrite Hg.
  destruct (erase_lookup_LED _ _ _ _ _ _ Hh2 Hd) as [lit' Hd2].
  unfold isinstance. simpl. rewrite Hd2. simpl.
  unfold device_off, led_write. simpl. rewrite Hd2. simpl.
  apply list_lookup_insert_eq. by eapply lookup_lt_Some.
Qed.




Lemma start_pulse_spec a d i w :
  let w0 := exec (stop_pulse env a) w in
  start_pulse env a d i w =
  (Ret tt,
   set_pulse_threads (<[a := length (threads w0)]> (pulse_threads w0))
     (set_threads (threads w0 ++ [{| th_device := d; th_interval := i;
                                     th_stop_event := false; th_pc := PcStart |}]) w0)).
Proof.
  simpl. unfold start_pulse, bind at 1, exec.
  pose proof (stop_pulse_returns a w) as Hr.
  destruct (stop_pulse env a w) as [r w0]. simpl in Hr. subst r. done.
Qed.





Lemma pins_to_save_only_active w : only_active w (pins_to_save w).
Proof.
  intros a. unfold pins_to_save. rewrite collect_pins_get. simpl.
  split; [intros [[? H]|H]; [done|done]|auto].
Qed.



Lemma handle_ai_applied a high d p lit w :
  GPIO_AVAILABLE env = true ->
  active_devices w !! a = Some d ->
  heap w !! d = Some {| obj := LED p lit; closed := false |} ->
  handle_ai_gpio_request env a (state_text high) w =
  (Ret (Applied a high),
   exec (save_persistent_states env)
     (set_heap (<[d := {| obj := LED p high; closed := false |}]> (heap w)) w)).
Proof.
  intros Hg Ha Hd. unfold handle_ai_gpio_request. rewrite Hg. simpl.
  unfold bind at 1, gets at 1. rewrite Ha.
  unfold bind at 1, gets at 1. rewrite Hd. simpl.
  unfold try_except, bind, device_on, device_off, led_write, ret, exec.
  destruct high; simpl; rewrite Hd; rewrite save_eq; done.
Qed.

(** C4, as amended.  With gpiozero available a set-state request fails
    with [NotConfigured] for a pin without a device and with
    [WrongCapability] for a pin whose device is not an LED, the world
    unchanged in both cases, and is applied to an open LED; without
    gpiozero every request fails with [GpioUnavailable] before the
    device table is looked at. *)
Theorem C4_set_state_checks a high w :
  let r := handle_ai_gpio_request env a (state_text high) w in
  (GPIO_AVAILABLE env = false -> r = (Ret GpioUnavailable, w)) /\
  (GPIO_AVAILABLE env = true -> active_devices w !! a = None ->
     r = (Ret (NotConfigured a), w)) /\
  (GPIO_AVAILABLE env = true -> forall d, active_devices w !! a = Some d ->
     isinstance is_LED d w = false ->
     r = (Ret (WrongCapability a (heap w !! d)), w)) /\
  (GPIO_AVAILABLE env = true -> forall d p lit, active_devices w !! a = Some d ->
     heap w !! d = Some {| obj := LED p lit; closed := false |} ->
     fst r = Ret (Applied a high) /\
     heap (snd r) !! d = Some {| obj := LED p high; closed := false |}).
Proof.
  intros r. subst r.
  split; [|split; [|split]].
  - unfold handle_ai_gpio_request. intros ->. done.
  - unfold handle_ai_gpio_request. intros -> Ha. simpl. unfold bind, gets. rewrite Ha. done.
  - unfold handle_ai_gpio_request. intros -> d Ha Hd. simpl.
    unfold bind at 1, gets at 1. rewrite Ha.
    unfold bind at 1, gets at 1. unfold isinstance in Hd. unfold isinstance_opt.
    destruct (heap w !! d) as [dv|]; [rewrite Hd|]; done.
  - intros Hg d p lit Ha Hd. rewrite (handle_ai_applied a high d p lit w Hg Ha Hd).
    split; [done|]. unfold exec. rewrite save_eq. simpl.
    destruct (_ && _); simpl; (apply list_lookup_insert_eq; by eapply lookup_lt_Some).
Qed.

Lemma release_unless_configured_returns a w :
  GPIO_AVAILABLE env = true -> fst (release_unless_configured env a w) = Ret tt.
Proof.
  intros Hg. unfold release_unless_configured, bind at 1, gets at 1.
  destruct (active_devices w !! a) as [d|]; [|apply cleanup_pin_returns].
  rewrite Hg. unfold bind, gets.
  destruct (_ || _); [done|apply cleanup_pin_returns].
Qed.

(** The failure path of [setup_pin]: whatever the [try] raised, what is
    left is the world after [cleanup_pin]. *)
Lemma setup_pin_failure a m fl e w w1 :
  GPIO_AVAILABLE env = true ->
  create_and_register env a m fl (exec (release_unless_configured env a) w) = (Raise e, w1) ->
  setup_pin env a m fl w = (Ret tt, exec (cleanup_pin env a) w1).
Proof.
  intros Hg Hc. unfold setup_pin, bind. unfold exec in Hc.
  pose proof (release_unless_configured_returns a w Hg) as Hr.
  destruct (release_unless_configured env a w) as [r w0]. simpl in Hr, Hc. subst r.
  rewrite Hg. simpl. unfold try_except. rewrite Hc. simpl.
  pose proof (cleanup_pin_returns a w1) as Hr1. unfold exec.
  destruct (cleanup_pin env a w1) as [r w2]. simpl in *. by subst r.
Qed.

Lemma catalog_fold (l : list PinInfo) (m : gmap Z PinInfo) (ws : gset Z) a :
  (a ∈ ws <-> is_Some (m !! a)) ->
  a ∈ foldl (fun ws info => match bcm info with
                            | Some b => {[ b ]} ∪ ws
                            | None => ws
                            end) ws l <->
  is_Some (foldl (fun m info => match bcm info with
                                | Some b => <[b := info]> m
                                | None => m
                                end) m l !! a).
Proof.
  revert m ws. induction l as [|info l IH]; intros m ws H; simpl; [done|].
  apply IH. destruct (bcm info) as [b|]; [|done].
  rewrite elem_of_union, elem_of_singleton, lookup_insert_is_Some, H.
  destruct (decide (b = a)); intuition congruence.
Qed.

Lemma widgets_are_catalog a : a ∈ pin_display_widgets <-> is_Some (BCM_PIN_MAP !! a).
Proof.
  apply catalog_fold. rewrite lookup_empty. split; [set_solver|by intros [? ?]].
Qed.

Lemma widget_outside_catalog a w :
  BCM_PIN_MAP !! a = None -> widget a w = (Raise KeyError, w).
Proof.
  intros H. unfold widget. rewrite bool_decide_eq_false_2; [done|].
  rewrite widgets_are_catalog, H. by intros [? ?].
Qed.

(** Without a widget the [try] of [setup_pin] cannot complete. *)
Lemma create_and_register_outside_catalog a m fl w :
  BCM_PIN_MAP !! a = None ->
  exists e w1, create_and_register env a m fl w = (Raise e, w1).
Proof.
  intros Hcat. unfold create_and_register.
  destruct m; unfold bind at 1.
  - unfold bind at 1, construct.
    destruct (constructor_ok env (heap w) a OUTPUT); [|eauto].
    unfold bind. rewrite widget_outside_catalog by done. eauto.
  - unfold construct. destruct (constructor_ok env (heap w) a INPUT); [|eauto].
    unfold bind at 1, modify at 1. unfold bind at 1, gets at 1.
    set (w1 := set_active_devices _ _).
    destruct (is_pin_persistent a w1) eqn:Hp.
    + unfold bind at 1. unfold bind at 1. unfold record_mode, bind at 1, gets at 1.
      unfold is_pin_persistent, dict_contains in Hp.
      destruct (dict_get a (persistent_pins w1)) as [r|]; [|done].
      unfold modify at 1. destruct fl.
      * unfold pass, ret. rewrite widget_outside_catalog by done. eauto.
      * rewrite save_eq. rewrite widget_outside_catalog by done. eauto.
    + unfold bind, pass, ret. rewrite widget_outside_catalog by done. eauto.
  - unfold bind at 1, construct.
    destruct (constructor_ok env (heap w) a PWM); [|eauto].
    unfold bind. rewrite widget_outside_catalog by done. eauto.
Qed.

(** C5, as amended.  [setup_pin] does not look the address up in the
    catalog.  For an address outside it the [try] cannot complete, because
    the pin has no widget, so the call ends in the failure path, which
    runs [cleanup_pin]: it returns normally, and afterwards the pin is
    neither persistent nor pulsing and holds no device, unless the [close]
    of that device raises. *)
Theorem C5_setup_pin_outside_catalog a m fl w :
  GPIO_AVAILABLE env = true ->
  BCM_PIN_MAP !! a = None ->
  let r := setup_pin env a m fl w in
  fst r = Ret tt /\
  (exists e w1,
     create_and_register env a m fl (exec (release_unless_configured env a) w) = (Raise e, w1) /\
     snd r = exec (cleanup_pin env a) w1) /\
  is_pin_persistent a (snd r) = false /\
  is_pin_pulsing a (snd r) = false /\
  match active_devices (snd r) !! a with
  | None => True
  | Some d => close_ok env (heap (snd r)) d = false
  end.
Proof.
  intros Hg Hcat r.
  destruct (create_and_register_outside_catalog a m fl
              (exec (release_unless_configured env a) w) Hcat) as (e & w1 & Hc).
  assert (r = (Ret tt, exec (cleanup_pin env a) w1)) as Hr
    by (by eapply setup_pin_failure).
  rewrite Hr. simpl. destruct (cleanup_settles a w1) as (Hp & Ha & Hd & _).
  split; [done|]. split; [eauto|]. split; [|split].
  - unfold is_pin_persistent, dict_contains. by rewrite Hd.
  - unfold is_pin_pulsing. rewrite Hp. apply bool_decide_eq_false. by intros [? ?].
  - destruct (active_devices _ !! a); [by destruct Ha|done].
Qed.

End Properties.

(** ** The page on concrete drivers *)

(** C1, what the code does.  The persistence round trip, evaluated on the board for pin 17: the
    pin is an output, it is marked persistent and set high, and the file
    then holds its record; but the record has no mode, so the page of the
    next process skips it and pin 17 is left unconfigured. *)
Theorem C1_restart_forgets_output :
  let w1 := output17 board in
  let w2 := exec (set_pin_persistence board 17 true) w1 in
  let r := handle_ai_gpio_request board 17 "high" w2 in
  let app := create_all_pages board (state_file (snd r)) in
  update_status board 17 w1 = ("OUT", "LOW") /\
  fst r = Ret (Applied 17 true) /\
  update_status board 17 (snd r) = ("OUT", "HIGH") /\
  state_file (snd r) =
    Some [(17, {| is_persistent := true; rec_mode := None; rec_state := Some HIGH |})] /\
  pages_GPIOPage app = true /\
  active_devices (world app) !! 17 = None /\
  update_status board 17 (world app) = ("?", "?").
Proof. vm_compute. repeat split. Qed.

(** A record without a mode is skipped by the loop of [_load_pin_states],
    whatever the driver. *)
Lemma restore_pin_without_mode env a r :
  rec_mode r = None -> restore_pin env a r = pass.
Proof. intros H. unfold restore_pin. by rewrite H. Qed.

(** [setup_pin] on a pin that holds a device of a known class releases
    nothing before it constructs the new device. *)
Lemma release_skipped_when_configured env a d dv w :
  GPIO_AVAILABLE env = true ->
  active_devices w !! a = Some d ->
  heap w !! d = Some dv ->
  release_unless_configured env a w = (Ret tt, w).
Proof.
  intros Hg Ha Hd. unfold release_unless_configured, bind, gets. rewrite Ha, Hg.
  unfold isinstance. rewrite Hd. unfold is_LED, is_PWMLED, is_Button.
  by destruct (obj dv).
Qed.

(** C2, what the code does.  Re-setup, evaluated for pin 17 set up as an output and then as
    an input.  Nothing is released before the new device is constructed.
    On the board the constructor finds the pin in use and raises, and the
    failure path leaves no device at all on pin 17; on a driver that does
    not refuse, the button replaces the LED in the table and the LED is
    never closed. *)
Theorem C2_resetup_keeps_old_handle :
  let w1 := output17 board in
  let w2 := exec (setup_pin board 17 INPUT false) w1 in
  let v1 := output17 permissive in
  let v2 := exec (setup_pin permissive 17 INPUT false) v1 in
  active_devices w1 !! 17 = Some 0%nat /\
  heap w1 = [{| obj := LED 17 false; closed := false |}] /\
  release_unless_configured board 17 w1 = (Ret tt, w1) /\
  create_and_register board 17 INPUT false w1 = (Raise GPIOZeroError, w1) /\
  active_devices w2 !! 17 = None /\
  active_devices v2 !! 17 = Some 1%nat /\
  heap v2 = [{| obj := LED 17 false; closed := false |};
             {| obj := Button 17; closed := false |}].
Proof. vm_compute. repeat split. Qed.

(** ** Instances and counterexamples *)


(** C4 as stated fails without gpiozero: pin 17 has no device, and the
    request is not answered with [NotConfigured]. *)
Lemma C4_headless_answer :
  active_devices fresh !! 17 = None /\
  fst (handle_ai_gpio_request headless 17 (state_text true) fresh) <> Ret (NotConfigured 17).
Proof. split; [reflexivity|]. vm_compute. discriminate. Qed.

(** C4 as amended, on the board: pin 17 is an output and is set high. *)
Lemma C4_board_sets_high :
  GPIO_AVAILABLE board = true /\
  fst (handle_ai_gpio_request board 17 (state_text true) (output17 board)) =
    Ret (Applied 17 true) /\
  heap (snd (handle_ai_gpio_request board 17 (state_text true) (output17 board))) !! 0%nat =
    Some {| obj := LED 17 true; closed := false |}.
Proof.
  split; [reflexivity|].
  assert (active_devices (output17 board) !! 17 = Some 0%nat) as Ha
    by (vm_compute; reflexivity).
  assert (heap (output17 board) !! 0%nat =
          Some {| obj := LED 17 false; closed := false |}) as Hd
    by (vm_compute; reflexivity).
  exact (proj2 (proj2 (proj2 (C4_set_state_checks board 17 true (output17 board))))
           eq_refl 0%nat 17 false Ha Hd).
Defined.

(** C5 as stated fails for address 99, which is not in the catalog:
    [setup_pin] returns normally, and it has written the state file, which
    did not exist; when address 99 had a persistence record, that record
    is gone. *)
Lemma C5_unknown_pin_mutates :
  let w := exec (set_pin_persistence board 99 true) fresh in
  BCM_PIN_MAP !! 99 = None /\
  fst (setup_pin board 99 OUTPUT false fresh) = Ret tt /\
  state_file fresh = None /\
  state_file (exec (setup_pin board 99 OUTPUT false) fresh) = Some [] /\
  is_pin_persistent 99 w = true /\
  fst (setup_pin board 99 OUTPUT false w) = Ret tt /\
  is_pin_persistent 99 (exec (setup_pin board 99 OUTPUT false) w) = false.
Proof. vm_compute. repeat split. Qed.

(** C5 as amended, at address 99 on the board. *)
Lemma C5_unknown_pin_cleaned :
  GPIO_AVAILABLE board = true /\ BCM_PIN_MAP !! 99 = None /\
  fst (setup_pin board 99 OUTPUT false fresh) = Ret tt.
Proof.
  split; [reflexivity|]. split; [reflexivity|].
  exact (proj1 (C5_setup_pin_outside_catalog board 99 OUTPUT false fresh eq_refl eq_refl)).
Defined.







(** * Further properties of the page, the windows and the radio *)

(** ** More about dictionaries *)

Lemma dict_get_None_keys a d : dict_get a d = None <-> a ∉ d.*1.
Proof.
  induction d as [|[k v] d IH]; simpl.
  - split; [intros _; apply not_elem_of_nil|done].
  - destruct (Z.eqb_spec a k) as [->|Hne].
    + split; [done|]. intros H. exfalso. apply H. apply list_elem_of_here.
    + rewrite IH. rewrite not_elem_of_cons. tauto.
Qed.

Lemma dict_pop_length a d : (length (dict_pop a d) <= length d)%nat.
Proof.
  induction d as [|[k v] d IH]; simpl; [done|].
  destruct (Z.eqb a k); simpl; lia.
Qed.

Lemma dict_pop_shorter a d : a ∈ d.*1 -> (length (dict_pop a d) < length d)%nat.
Proof.
  induction d as [|[k v] d IH]; simpl.
  - intros H. by apply elem_of_nil in H.
  - intros H. destruct (Z.eqb_spec a k) as [->|Hne].
    + pose proof (dict_pop_length k d). lia.
    + apply elem_of_cons in H as [H|H]; [done|]. simpl. specialize (IH H). lia.
Qed.

Lemma dict_set_fresh k v d : k ∉ d.*1 -> dict_set k v d = (d ++ [(k, v)])%list.
Proof.
  induction d as [|[k' v'] d IH]; simpl; [done|].
  intros H. apply not_elem_of_cons in H as [Hne H].
  destruct (Z.eqb_spec k k'); [done|]. by rewrite IH.
Qed.



Lemma load_json_app acc c :
  NoDup (acc.*1 ++ c.*1) ->
  foldl (fun d kv => dict_set (fst kv) (snd kv) d) acc c = (acc ++ c)%list.
Proof.
  revert acc. induction c as [|[k v] c IH]; intros acc Hnd; simpl.
  - by rewrite app_nil_r.
  - simpl in Hnd. apply NoDup_app in Hnd as (Ha & Hdisj & Hc).
    apply NoDup_cons in Hc as [Hk Hc].
    rewrite dict_set_fresh by (intros Hin; eapply Hdisj; [exact Hin|apply list_elem_of_here]).
    rewrite IH; [by rewrite <- app_assoc|].
    rewrite fmap_app. simpl. rewrite <- app_assoc. simpl.
    apply NoDup_app. split; [done|]. split.
    + intros x Hx Hx'. apply elem_of_cons in Hx' as [->|Hx'].
      * eapply Hdisj; [exact Hx|apply list_elem_of_here].
      * eapply Hdisj; [exact Hx|by apply list_elem_of_further].
    + by apply NoDup_cons.
Qed.

(** Reading back a table with distinct keys gives the table. *)
Lemma load_json_id c : NoDup c.*1 -> load_json c = c.
Proof. intros H. unfold load_json. by rewrite load_json_app. Qed.

Lemma PinMode_by_name_nonempty s m : PinMode_by_name s = Some m -> String.eqb s "" = false.
Proof. intros H. destruct s; [discriminate|done]. Qed.

Lemma led_write_keeps_records d f w :
  persistent_pins (snd (led_write d f w)) = persistent_pins w.
Proof. apply led_write_same_page. Qed.

Lemma pwm_write_keeps_records d v w :
  persistent_pins (snd (pwm_write d v w)) = persistent_pins w.
Proof.
  unfold pwm_write. destruct (heap w !! d) as [[[| |] []]|]; try done.
  by destruct (_ && _).
Qed.

Lemma erase_lookup (h h' : list GZDevice) d dv :
  erase_lit <$> h' = erase_lit <$> h ->
  h !! d = Some dv ->
  exists dv', h' !! d = Some dv' /\ erase_lit dv' = erase_lit dv.
Proof.
  intros He Hd. apply (f_equal (fun l => l !! d)) in He.
  rewrite !list_lookup_fmap, Hd in He. simpl in He.
  destruct (h' !! d) as [dv'|]; simpl in He; [|discriminate].
  injection He as He. eauto.
Qed.


Lemma erase_lit_closed dv dv' : erase_lit dv' = erase_lit dv -> closed dv' = closed dv.
Proof.
  destruct dv as [[| |] ?], dv' as [[| |] ?]; unfold erase_lit; simpl; congruence.
Qed.


Lemma collect_pins_exact w a items acc :
  NoDup items.*1 ->
  dict_get a (collect_pins w items acc) =
  match dict_get a items, active_devices w !! a with
  | Some info, Some d => Some (with_state (heap w !! d) info)
  | _, _ => dict_get a acc
  end.
Proof.
  revert acc. induction items as [|[k v] items IH]; intros acc Hnd; [done|].
  rewrite fmap_cons in Hnd. apply NoDup_cons in Hnd as [Hk Hnd]. cbn [fst] in Hk.
  cbn [collect_pins dict_get]. rewrite IH by done.
  destruct (Z.eqb_spec a k) as [->|Hne].
  - apply dict_get_None_keys in Hk. rewrite Hk.
    destruct (active_devices w !! k); [|done]. by rewrite dict_get_set, Z.eqb_refl.
  - destruct (dict_get a items); [destruct (active_devices w !! a); [done|]|].
    + destruct (active_devices w !! k); [|done]. rewrite dict_get_set.
      by destruct (Z.eqb_spec a k).
    + destruct (active_devices w !! k); [|done]. rewrite dict_get_set.
      by destruct (Z.eqb_spec a k).
Qed.

Lemma dict_pop_set a v d : dict_pop a (dict_set a v d) = dict_pop a d.
Proof.
  induction d as [|[k v'] d IH]; simpl.
  - by rewrite Z.eqb_refl.
  - destruct (Z.eqb_spec a k) as [->|Hne]; simpl.
    + by rewrite Z.eqb_refl.
    + destruct (Z.eqb_spec a k); [done|]. by rewrite IH.
Qed.

Lemma goto_erase_pc tid pc w : erase_pc <$> threads (goto tid pc w) = erase_pc <$> threads w.
Proof.
  unfold goto. destruct (threads w !! tid) as [th|] eqn:Ht; [|done]. simpl.
  rewrite list_fmap_insert. apply list_insert_id. by rewrite list_lookup_fmap, Ht.
Qed.

Lemma led_write_threads d f w : threads (snd (led_write d f w)) = threads w.
Proof. unfold led_write. by destruct (heap w !! d) as [[[| |] []]|]. Qed.

Section More.

Variable env : Environment.

Lemma release_step_frame a w :
  persistent_pins (release_step env a w) = persistent_pins w /\
  pulse_threads (release_step env a w) = pulse_threads w /\
  state_file (release_step env a w) = state_file w /\
  threads (release_step env a w) = threads w.
Proof.
  unfold release_step. destruct (active_devices w !! a); [|done].
  destruct (GPIO_AVAILABLE env); [destruct (close_ok env (heap w) n)|]; done.
Qed.

Lemma save_frame w :
  let w' := exec (save_persistent_states env) w in
  persistent_pins w' = persistent_pins w /\ pulse_threads w' = pulse_threads w /\
  active_devices w' = active_devices w /\ heap w' = heap w /\ threads w' = threads w.
Proof. unfold exec. rewrite save_eq. simpl. by destruct (_ && _). Qed.

(** The page after [cleanup_pin], field by field. *)
Lemma cleanup_pin_fields a w :
  let w1 := exec (stop_pulse env a) w in
  let w' := exec (cleanup_pin env a) w in
  persistent_pins w' = dict_pop a (persistent_pins w) /\
  pulse_threads w' = delete a (pulse_threads w) /\
  active_devices w' = active_devices (release_step env a w1) /\
  heap w' = heap (release_step env a w1) /\
  threads w' = threads w1.
Proof.
  intros w1 w'. subst w'. unfold exec at 1 2 3 4 5. rewrite cleanup_pin_eq. fold w1.
  set (w2 := release_step env a w1).
  destruct (release_step_frame a w1) as (Hp & Hpt & _ & Ht). fold w2 in Hp, Hpt, Ht.
  destruct (stop_pulse_frame env a w) as (Hpt1 & _ & Hp1 & _). fold w1 in Hpt1, Hp1.
  destruct (save_frame (set_persistent_pins (dict_pop a (persistent_pins w2)) w2))
    as (E1 & E2 & E3 & E4 & E5).
  unfold exec in E1, E2, E3, E4, E5. rewrite E1, E2, E3, E4, E5. simpl.
  rewrite Hp, Hp1, Hpt, Hpt1, Ht. by repeat split.
Qed.

Lemma create_and_register_keeps_records a m fl w :
  is_pin_persistent a w = false ->
  persistent_pins (snd (create_and_register env a m fl w)) = persistent_pins w.
Proof.
  intros Hp. unfold create_and_register, bind, construct, widget, modify, gets, pass, ret, raise.
  generalize (bool_decide (a ∈ pin_display_widgets)). intros b.
  unfold is_pin_persistent in *.
  destruct m; destruct (constructor_ok env (heap w) a _); destruct b; simpl;
    rewrite ?Hp; simpl; done.
Qed.

(** [setup_pin] on a pin without a device: the persistence record of the
    pin is gone, whatever happens to the device. *)
Lemma setup_pin_pops a m fl w :
  active_devices w !! a = None ->
  exists w', setup_pin env a m fl w = (Ret tt, w') /\
             persistent_pins w' = dict_pop a (persistent_pins w).
Proof.
  intros Ha. unfold setup_pin, bind.
  assert (release_unless_configured env a w = cleanup_pin env a w) as ->.
  { unfold release_unless_configured, bind, gets. by rewrite Ha. }
  pose proof (cleanup_pin_returns env a w) as Hr.
  destruct (cleanup_pin_fields a w) as (Hp & _). unfold exec in Hp.
  destruct (cleanup_pin env a w) as [r w1]. simpl in Hr, Hp. subst r.
  destruct (GPIO_AVAILABLE env); simpl; [|by eauto].
  assert (is_pin_persistent a w1 = false) as Hnp.
  { unfold is_pin_persistent, dict_contains. by rewrite Hp, dict_get_pop_eq. }
  pose proof (create_and_register_keeps_records a m fl w1 Hnp) as Hk.
  unfold try_except. destruct (create_and_register env a m fl w1) as [[[]|e] w2]; simpl in *.
  - eexists. split; [done|]. congruence.
  - pose proof (cleanup_pin_returns env a w2) as Hr2.
    destruct (cleanup_pin_fields a w2) as (Hp2 & _). unfold exec in Hp2.
    destruct (cleanup_pin env a w2) as [r w3]. simpl in *. subst r.
    eexists. split; [done|]. rewrite Hp2, Hk, Hp. apply dict_pop_pop.
Qed.

Lemma restore_pin_skip k r w :
  (forall s m, rec_mode r = Some s -> PinMode_by_name s = Some m -> False) ->
  restore_pin env k r w = (Ret tt, w).
Proof.
  intros H. unfold restore_pin. destruct (rec_mode r) as [s|]; [|done].
  destruct (String.eqb s ""); [done|].
  destruct (PinMode_by_name s) as [m|] eqn:Hm; [by destruct (H s m)|].
  done.
Qed.

Lemma restore_pin_pops k r s m w :
  rec_mode r = Some s -> PinMode_by_name s = Some m ->
  active_devices w !! k = None ->
  exists w', restore_pin env k r w = (Ret tt, w') /\
             persistent_pins w' = dict_pop k (persistent_pins w).
Proof.
  intros Hs Hm Ha. unfold restore_pin. rewrite Hs, (PinMode_by_name_nonempty s m Hm), Hm.
  unfold try_except, bind at 1, ret at 1. unfold bind at 1.
  destruct (setup_pin_pops k m true w Ha) as (w1 & -> & Hp).
  unfold bind at 1, gets at 1.
  destruct (active_devices w1 !! k) as [d|]; [|by eauto].
  unfold bind, gets.
  destruct (bool_decide (m = OUTPUT) && isinstance is_LED d w1).
  - destruct (rec_state r) as [[]|].
    1: pose proof (led_write_keeps_records d (fun _ => true) w1) as Hk.
    2-4: pose proof (led_write_keeps_records d (fun _ => false) w1) as Hk.
    all: unfold device_on, device_off;
      destruct (led_write d _ w1) as [[[]|e] w2]; simpl in *;
      (eexists; split; [done|congruence]).
  - destruct (bool_decide (m = PWM) && isinstance is_PWMLED d w1); [|by eauto].
    unfold float_of. destruct (rec_state r) as [[| |q]|]; try by eauto.
    unfold ret. pose proof (pwm_write_keeps_records d q w1) as Hk.
    destruct (pwm_write d q w1) as [[[]|e] w2]; simpl in *;
      (eexists; split; [done|congruence]).
Qed.

Lemma restore_loop_raises size items w :
  length (persistent_pins w) = size ->
  (forall k r, (k, r) ∈ items ->
     active_devices w !! k = None /\ k ∈ (persistent_pins w).*1) ->
  (exists k r s m, (k, r) ∈ items /\ rec_mode r = Some s /\ PinMode_by_name s = Some m) ->
  fst (restore_loop env size items w) = Raise RuntimeError.
Proof.
  intros Hsize. induction items as [|[k r] items IH]; intros Hin Hex.
  - destruct Hex as (? & ? & ? & ? & H & _). by apply elem_of_nil in H.
  - cbn [restore_loop]. unfold bind at 1, gets at 1. rewrite Hsize, Nat.eqb_refl.
    cbn [negb]. unfold bind at 1.
    destruct (rec_mode r) as [s|] eqn:Hs; [destruct (PinMode_by_name s) as [m|] eqn:Hm|].
    + destruct (Hin k r (list_elem_of_here _ _)) as [Ha Hk].
      destruct (restore_pin_pops k r s m w Hs Hm Ha) as (w' & -> & Hp).
      pose proof (dict_pop_shorter k (persistent_pins w) Hk) as Hlt.
      assert (Nat.eqb (length (persistent_pins w')) size = false) as Hne.
      { apply Nat.eqb_neq. rewrite Hp. lia. }
      destruct items as [|[k' r'] items']; cbn [restore_loop];
        unfold bind, gets; rewrite Hne; done.
    + rewrite restore_pin_skip by (intros s' m' H1 H2; congruence).
      apply IH.
      * intros k' r' H. apply (Hin k' r'). by apply list_elem_of_further.
      * destruct Hex as (k' & r' & s' & m' & H & Hs' & Hm').
        apply elem_of_cons in H as [H|H]; [|by eauto 10].
        injection H as -> ->. congruence.
    + rewrite restore_pin_skip by (intros s' m' H1 H2; congruence).
      apply IH.
      * intros k' r' H. apply (Hin k' r'). by apply list_elem_of_further.
      * destruct Hex as (k' & r' & s' & m' & H & Hs' & Hm').
        apply elem_of_cons in H as [H|H]; [|by eauto 10].
        injection H as -> ->. congruence.
Qed.

(** X1.  A state file with distinct keys in which some pin has a record with
    the name of a mode: [_load_pin_states] sets the pin up, which takes
    the pin out of the table it is iterating over, and the loop ends in
    the RuntimeError of a dictionary that changed size.  The error leaves
    [GPIOPage.__init__], [create_all_pages] drops the page, and a request
    for the pin is answered with the module not being loaded. *)
Theorem load_of_a_saved_mode_raises content k r s m :
  GPIO_AVAILABLE env = true ->
  NoDup content.*1 ->
  (k, r) ∈ content ->
  rec_mode r = Some s ->
  PinMode_by_name s = Some m ->
  fst (GPIOPage_init env (Some content)) = Raise RuntimeError /\
  pages_GPIOPage (create_all_pages env (Some content)) = false /\
  fst (request_gpio_action env k "high" (create_all_pages env (Some content))) =
    Ret (false, "GPIO Control module is not loaded.").
Proof.
  intros Hg Hnd Hin Hs Hm.
  assert (fst (GPIOPage_init env (Some content)) = Raise RuntimeError) as Hr.
  { unfold GPIOPage_init, _load_pin_states. rewrite Hg. cbn [negb].
    unfold try_except, bind at 1, gets at 1. cbn [state_file new_process].
    unfold bind at 1, modify at 1. unfold bind at 1, gets at 1.
    cbn [persistent_pins set_persistent_pins]. rewrite load_json_id by done.
    set (w := set_persistent_pins content (new_process (Some content))).
    pose proof (restore_loop_raises (length content) content w eq_refl) as H.
    destruct (restore_loop env (length content) content w) as [o w'].
    simpl in H. rewrite H; [done| |by eauto 10].
    intros k' r' Hk'. split; [apply lookup_empty|].
    apply list_elem_of_fmap. by exists (k', r'). }
  unfold create_all_pages, request_gpio_action.
  destruct (GPIOPage_init env (Some content)) as [o w']. simpl in Hr. subst o. done.
Qed.

(** X2.  [setup_pin] of a pin that holds no device returns and leaves the pin
    not persistent, whatever the driver does: both the path through the
    constructor and the one through the failure handler go through
    [cleanup_pin].  The records of the other pins stay. *)
Theorem setup_pin_drops_persistence a m fl w :
  active_devices w !! a = None ->
  let w' := exec (setup_pin env a m fl) w in
  fst (setup_pin env a m fl w) = Ret tt /\
  is_pin_persistent a w' = false /\
  (forall b, b <> a ->
     dict_get b (persistent_pins w') = dict_get b (persistent_pins w)).
Proof.
  intros Ha w'. subst w'. unfold exec.
  destruct (setup_pin_pops a m fl w Ha) as (w' & -> & Hp). simpl.
  split; [done|]. split.
  - unfold is_pin_persistent, dict_contains. by rewrite Hp, dict_get_pop_eq.
  - intros b Hb. rewrite Hp. by apply dict_get_pop_ne.
Qed.

Lemma cleanup_pin_without_device a w :
  active_devices w !! a = None ->
  active_devices (exec (cleanup_pin env a) w) = active_devices w.
Proof.
  intros Ha. destruct (cleanup_pin_fields a w) as (_ & _ & -> & _).
  destruct (stop_pulse_frame env a w) as (_ & Ha1 & _).
  unfold release_step. rewrite Ha1, Ha. exact Ha1.
Qed.

Lemma widget_in_catalog a info :
  BCM_PIN_MAP !! a = Some info -> widget a = pass.
Proof.
  intros H. unfold widget. rewrite bool_decide_eq_true_2; [done|].
  rewrite widgets_are_catalog, H. eauto.
Qed.

Lemma create_and_register_succeeds a m fl info w :
  BCM_PIN_MAP !! a = Some info ->
  is_pin_persistent a w = false ->
  constructor_ok env (heap w) a m = true ->
  create_and_register env a m fl w =
  (Ret tt, set_active_devices (<[a := length (heap w)]> (active_devices w))
             (set_heap (heap w ++ [new_device m a]) w)).
Proof.
  intros Hcat Hnp Hc. unfold create_and_register.
  rewrite (widget_in_catalog a info Hcat).
  unfold is_pin_persistent in *.
  unfold bind, construct, modify, gets, pass, ret.
  destruct m; rewrite Hc; cbn [fst snd persistent_pins set_active_devices set_heap];
    rewrite Hnp; reflexivity.
Qed.

(** X3.  [setup_pin] of a catalog pin that holds no device, when the
    constructor accepts: the pin holds a new open object of the class of
    the mode, with its initial value; it is neither pulsing nor
    persistent, its widget shows the mode, and the other pins keep their
    devices. *)
Theorem setup_pin_installs a m fl info w :
  GPIO_AVAILABLE env = true ->
  BCM_PIN_MAP !! a = Some info ->
  active_devices w !! a = None ->
  constructor_ok env (heap (exec (cleanup_pin env a) w)) a m = true ->
  let w' := exec (setup_pin env a m fl) w in
  let d := length (heap (exec (cleanup_pin env a) w)) in
  fst (setup_pin env a m fl w) = Ret tt /\
  active_devices w' !! a = Some d /\
  heap w' !! d = Some (new_device m a) /\
  is_pin_pulsing a w' = false /\
  is_pin_persistent a w' = false /\
  fst (update_status env a w') =
    match m with OUTPUT => "OUT" | INPUT => "IN" | PWM => "PWM" end /\
  (forall b, b <> a -> active_devices w' !! b = active_devices w !! b).
Proof.
  intros Hg Hcat Ha Hc w' d.
  pose proof (cleanup_pin_without_device a w Ha) as Ha1.
  destruct (cleanup_pin_fields a w) as (Hp1 & Hpt1 & _).
  pose proof (cleanup_pin_returns env a w) as Hr1.
  set (w1 := exec (cleanup_pin env a) w) in *.
  set (w2 := set_active_devices (<[a := d]> (active_devices w1))
               (set_heap (heap w1 ++ [new_device m a]) w1)).
  assert (setup_pin env a m fl w = (Ret tt, w2)) as Heq.
  { unfold setup_pin, bind at 1.
    assert (release_unless_configured env a w = cleanup_pin env a w) as ->.
    { unfold release_unless_configured, bind, gets. by rewrite Ha. }
    unfold w1, exec in *. destruct (cleanup_pin env a w) as [r w1']. simpl in *. subst r.
    rewrite Hg. cbn [negb]. unfold try_except.
    assert (is_pin_persistent a w1' = false) as Hnp.
    { unfold is_pin_persistent, dict_contains. by rewrite Hp1, dict_get_pop_eq. }
    by rewrite (create_and_register_succeeds a m fl info w1' Hcat Hnp Hc). }
  subst w'. unfold exec. rewrite Heq. cbn [fst snd].
  assert (heap w2 !! d = Some (new_device m a)) as Hd.
  { unfold w2. cbn [heap set_active_devices set_heap].
    rewrite lookup_app_r by done. unfold d. by rewrite Nat.sub_diag. }
  assert (active_devices w2 !! a = Some d) as Had
    by (unfold w2; cbn [active_devices set_active_devices]; apply lookup_insert_eq).
  assert (is_pin_pulsing a w2 = false) as Hnp.
  { unfold is_pin_pulsing, w2. cbn [pulse_threads set_active_devices set_heap].
    rewrite Hpt1, lookup_delete_eq. apply bool_decide_eq_false. by intros [? ?]. }
  split; [done|]. split; [done|]. split; [done|]. split; [done|]. split; [|split].
  - unfold is_pin_persistent, dict_contains, w2.
    cbn [persistent_pins set_active_devices set_heap]. by rewrite Hp1, dict_get_pop_eq.
  - unfold update_status. rewrite Had, Hg, Hd. by destruct m.
  - intros b Hb. unfold w2. cbn [active_devices set_active_devices].
    rewrite lookup_insert_ne by done. by rewrite Ha1.
Qed.

(** X4.  Without gpiozero the page loads nothing at start, [setup_pin] of a
    free pin only takes the pin out of the persistence table, and
    [save_persistent_states] does nothing. *)
Theorem without_gpiozero_nothing_is_created a m fl file w :
  GPIO_AVAILABLE env = false ->
  active_devices w !! a = None ->
  pulse_threads w !! a = None ->
  GPIOPage_init env file = (Ret tt, new_process file) /\
  setup_pin env a m fl w =
    (Ret tt, set_persistent_pins (dict_pop a (persistent_pins w)) w) /\
  save_persistent_states env w = (Ret tt, w).
Proof.
  intros Hg Ha Hp. split; [|split].
  - unfold GPIOPage_init, _load_pin_states. by rewrite Hg.
  - unfold setup_pin, bind at 1.
    assert (release_unless_configured env a w = cleanup_pin env a w) as ->.
    { unfold release_unless_configured, bind, gets. by rewrite Ha. }
    rewrite cleanup_pin_eq. unfold exec. rewrite stop_pulse_noop by done. cbn [snd].
    unfold release_step. rewrite Ha. rewrite save_eq, Hg. done.
  - by rewrite save_eq, Hg.
Qed.

Lemma thread_step_erase_pc tid w :
  erase_pc <$> threads (snd (thread_step env tid w)) = erase_pc <$> threads w.
Proof.
  unfold thread_step. destruct (threads w !! tid) as [th|]; [|done].
  destruct (th_pc th); simpl.
  - destruct (_ && _); apply goto_erase_pc.
  - destruct (th_stop_event th); apply goto_erase_pc.
  - unfold device_toggle. pose proof (led_write_threads (th_device th) negb w) as H.
    destruct (led_write _ _ w) as [[]?]; simpl in *; rewrite goto_erase_pc; by rewrite H.
  - apply goto_erase_pc.
  - unfold device_off.
    pose proof (led_write_threads (th_device th) (fun _ => false) w) as H.
    destruct (led_write _ _ w) as [[]?]; simpl in *; rewrite goto_erase_pc; by rewrite H.
  - done.
Qed.

Lemma run_thread_erase_pc n tid w :
  erase_pc <$> threads (snd (run_thread env n tid w)) = erase_pc <$> threads w.
Proof.
  revert w. induction n as [|n IH]; intros w; [done|]. rewrite run_thread_S.
  pose proof (thread_step_erase_pc tid w) as H1.
  destruct (thread_step env tid w) as [ev w1]. simpl in H1.
  pose proof (IH w1) as H2. destruct (run_thread env n tid w1) as [evs w2].
  simpl in *. congruence.
Qed.

(** [stop_pulse] sets the stop event of the registered thread and changes
    nothing else about any thread but program points. *)
Lemma stop_pulse_signals a tid th w :
  pulse_threads w !! a = Some tid ->
  threads w !! tid = Some th ->
  erase_pc <$> threads (exec (stop_pulse env a) w) =
  <[tid := erase_pc (signalled th)]> (erase_pc <$> threads w).
Proof.
  intros Hp Ht. unfold exec.
  unfold stop_pulse, bind, gets, modify, pass, ret, set_stop_event, join, try_except.
  simpl. rewrite Hp. simpl. rewrite Ht.
  set (w1 := set_threads (<[tid := signalled th]> (threads w)) w).
  pose proof (run_thread_erase_pc (join_steps env (threads w1) tid) tid w1) as H2.
  set (w2 := snd (run_thread env _ tid w1)) in *.
  assert (erase_pc <$> threads w2 = <[tid := erase_pc (signalled th)]> (erase_pc <$> threads w))
    as H3 by (rewrite H2; unfold w1; simpl; apply list_fmap_insert).
  set (w3 := set_pulse_threads _ w2).
  destruct (active_devices w2 !! a) as [d|]; [|exact H3]. simpl.
  destruct (_ && _); [|exact H3]. simpl.
  pose proof (led_write_threads d (fun _ => false) w3) as H4. unfold device_off.
  destruct (led_write d _ w3) as [[[]|] w4]; cbn [fst snd] in *; rewrite H4; exact H3.
Qed.

(** X5.  The answer to a set-state request depends on the state text only
    through its lower-case form; a text that is neither is refused and
    nothing changes. *)
Theorem set_state_ignores_case a state d p lit w :
  GPIO_AVAILABLE env = true ->
  active_devices w !! a = Some d ->
  heap w !! d = Some {| obj := LED p lit; closed := false |} ->
  (lower state = "high" ->
     handle_ai_gpio_request env a state w = handle_ai_gpio_request env a "high" w) /\
  (lower state = "low" ->
     handle_ai_gpio_request env a state w = handle_ai_gpio_request env a "low" w) /\
  (lower state <> "high" -> lower state <> "low" ->
     handle_ai_gpio_request env a state w =
     (Ret (false, "Invalid state '" +:+ state +:+ "'. Use 'high' or 'low'."), w)).
Proof.
  intros Hg Ha Hd.
  assert (forall st, handle_ai_gpio_request env a st w =
            try_except Exception
              (msg <- (if String.eqb (lower st) "high"
                       then device_on d ;;
                            ret (Some ("Successfully set BCM Pin " +:+ pretty a +:+ " to HIGH."))
                       else if String.eqb (lower st) "low"
                       then device_off d ;;
                            ret (Some ("Successfully set BCM Pin " +:+ pretty a +:+ " to LOW."))
                       else ret None) ;;
               match msg with
               | Some msg => save_persistent_states env ;; ret (true, msg)
               | None => ret (false, "Invalid state '" +:+ st +:+ "'. Use 'high' or 'low'.")
               end)
              (fun e => ret (false, "Failed to set state for BCM Pin " +:+ pretty a +:+
                                    ": " +:+ exn_text e)) w) as Heq.
  { intros st. unfold handle_ai_gpio_request. rewrite Hg. cbn [negb].
    unfold bind at 1, gets at 1. rewrite Ha. unfold bind at 1, gets at 1. by rewrite Hd. }
  split; [|split].
  - intros H. rewrite !Heq. unfold try_except, bind. rewrite H.
    change (lower "high") with "high". rewrite !String.eqb_refl.
    unfold device_on, led_write, ret. cbv beta. rewrite Hd. reflexivity.
  - intros H. rewrite !Heq. unfold try_except, bind. rewrite H.
    change (lower "low") with "low". change (String.eqb "low" "high") with false.
    rewrite !String.eqb_refl.
    unfold device_off, led_write, ret. cbv beta. rewrite Hd. reflexivity.
  - intros H1 H2. rewrite Heq. unfold try_except, bind.
    apply String.eqb_neq in H1, H2. by rewrite H1, H2.
Qed.



(** X8.  Starting a pulse on a pin that is pulsing: the registry then holds
    the new thread only, and the old thread has been told to stop. *)
Theorem second_pulse_replaces_first a d1 i1 d2 i2 k w :
  let tid1 := length (threads w) in
  let w1 := exec (start_pulse env a d1 i1) w in
  let w1' := snd (run_thread env k tid1 w1) in
  let w2 := exec (start_pulse env a d2 i2) w1' in
  pulse_threads w1 !! a = Some tid1 /\
  pulse_threads w2 !! a = Some (S tid1) /\
  threads w2 !! S tid1 = Some {| th_device := d2; th_interval := i2;
                                 th_stop_event := false; th_pc := PcStart |} /\
  erase_pc <$> threads w2 !! tid1 =
    Some {| th_device := d1; th_interval := i1; th_stop_event := true; th_pc := PcStart |} /\
  length (threads w2) = S (S tid1).
Proof.
  intros tid1 w1 w1' w2.
  destruct (stop_pulse_frame env a w) as (_ & _ & _ & _ & _ & Hl0).
  assert (pulse_threads w1 !! a = Some tid1 /\
          threads w1 !! tid1 = Some {| th_device := d1; th_interval := i1;
                                       th_stop_event := false; th_pc := PcStart |} /\
          length (threads w1) = S tid1) as (Hreg1 & Hth1 & Hlen1).
  { unfold w1, exec. rewrite start_pulse_spec. cbn. rewrite Hl0. fold tid1.
    split; [apply lookup_insert_eq|]. split.
    - rewrite lookup_app_r by (rewrite Hl0; done). rewrite Hl0. fold tid1.
      by rewrite Nat.sub_diag.
    - rewrite length_app, Hl0. simpl. unfold tid1. lia. }
  pose proof (run_thread_same_page env k tid1 w1) as [_ Hpp _ _ _ Hlen].
  pose proof (run_thread_erase_pc k tid1 w1) as Her. fold w1' in Hpp, Hlen, Her.
  assert (exists th1, threads w1' !! tid1 = Some th1 /\
            erase_pc th1 = {| th_device := d1; th_interval := i1;
                              th_stop_event := false; th_pc := PcStart |}) as (th1 & Hth1' & He1).
  { apply (f_equal (fun l => l !! tid1)) in Her. rewrite !list_lookup_fmap, Hth1 in Her.
    destruct (threads w1' !! tid1) as [th1|]; [|done]. apply (inj Some) in Her.
    exists th1. split; [done|]. exact Her. }
  assert (pulse_threads w1' !! a = Some tid1) as Hreg1' by (by rewrite Hpp).
  pose proof (stop_pulse_signals a tid1 th1 w1' Hreg1' Hth1') as Hsig.
  destruct (stop_pulse_frame env a w1') as (_ & _ & _ & _ & _ & Hl1).
  set (w1s := exec (stop_pulse env a) w1') in *.
  assert (length (threads w1s) = S tid1) as Hlen1s by congruence.
  split; [done|].
  unfold w2, exec. rewrite start_pulse_spec. cbv zeta. fold w1s. cbn. rewrite Hlen1s.
  split; [apply lookup_insert_eq|]. split; [|split].
  - rewrite lookup_app_r by lia. rewrite Hlen1s. by rewrite Nat.sub_diag.
  - rewrite lookup_app_l by lia. rewrite <- list_lookup_fmap, Hsig.
    rewrite list_lookup_insert_eq by (rewrite length_fmap; by eapply lookup_lt_Some).
    f_equal. unfold erase_pc, with_pc, signalled. simpl.
    injection He1 as -> -> _. done.
  - rewrite length_app, Hlen1s. simpl. lia.
Qed.

Lemma release_step_other a b w :
  b <> a -> active_devices (release_step env a w) !! b = active_devices w !! b.
Proof.
  intros Hb. unfold release_step. destruct (active_devices w !! a) as [d|]; [|done].
  destruct (GPIO_AVAILABLE env); [destruct (close_ok env (heap w) d)|]; simpl;
    rewrite ?lookup_delete_ne by done; done.
Qed.

Lemma release_step_heap a d' dv w :
  heap w !! d' = Some dv ->
  active_devices w !! a <> Some d' ->
  heap (release_step env a w) !! d' = Some dv.
Proof.
  intros Hd Hne. unfold release_step. destruct (active_devices w !! a) as [d|]; [|done].
  destruct (GPIO_AVAILABLE env); [destruct (close_ok env (heap w) d)|]; simpl; try done.
  unfold mark_closed. destruct (heap w !! d); [|done].
  rewrite list_lookup_insert_ne; [done|congruence].
Qed.

(** X9.  [cleanup_pin] of one pin leaves the other pins alone: their devices,
    their pulses, their persistence records; and every object but the one
    the pin held keeps its class, its pin and whether it is closed. *)
Theorem cleanup_pin_leaves_other_pins a b w :
  b <> a ->
  let w' := exec (cleanup_pin env a) w in
  active_devices w' !! b = active_devices w !! b /\
  pulse_threads w' !! b = pulse_threads w !! b /\
  dict_get b (persistent_pins w') = dict_get b (persistent_pins w) /\
  (forall d' dv, heap w !! d' = Some dv -> active_devices w !! a <> Some d' ->
     exists dv', heap w' !! d' = Some dv' /\ erase_lit dv' = erase_lit dv).
Proof.
  intros Hb w'. destruct (cleanup_pin_fields a w) as (Hp & Hpt & Ha & Hh & _).
  fold w' in Hp, Hpt, Ha, Hh.
  destruct (stop_pulse_frame env a w) as (_ & Ha1 & _ & _ & Hh1 & _).
  rewrite Hp, Hpt, Ha, Hh. split; [|split; [|split]].
  - rewrite release_step_other by done. by rewrite Ha1.
  - by rewrite lookup_delete_ne.
  - by apply dict_get_pop_ne.
  - intros d' dv Hd Hne. destruct (erase_lookup _ _ _ _ Hh1 Hd) as (dv' & Hd' & He).
    exists dv'. split; [|done]. apply release_step_heap; [done|by rewrite Ha1].
Qed.



Lemma pins_to_save_exact a d info w :
  NoDup (persistent_pins w).*1 ->
  dict_get a (persistent_pins w) = Some info ->
  active_devices w !! a = Some d ->
  dict_get a (pins_to_save w) = Some (with_state (heap w !! d) info).
Proof.
  intros Hnd Hi Ha. unfold pins_to_save. rewrite collect_pins_exact by done.
  by rewrite Hi, Ha.
Qed.

(** X6.  A set-state request on a persistent output is in the file at once:
    the record of the pin keeps its mode and holds the requested level. *)
Theorem set_state_is_persisted a high d p lit info w :
  GPIO_AVAILABLE env = true ->
  (forall f c, write_ok env f c = true) ->
  NoDup (persistent_pins w).*1 ->
  dict_get a (persistent_pins w) = Some info ->
  active_devices w !! a = Some d ->
  heap w !! d = Some {| obj := LED p lit; closed := false |} ->
  let r := handle_ai_gpio_request env a (state_text high) w in
  fst r = Ret (Applied a high) /\
  exists c, state_file (snd r) = Some c /\
            dict_get a c = Some {| is_persistent := is_persistent info;
                                   rec_mode := rec_mode info;
                                   rec_state := Some (if high then HIGH else LOW) |}.
Proof.
  intros Hg Hw Hnd Hi Ha Hd r. subst r.
  rewrite (handle_ai_applied env a high d p lit w Hg Ha Hd). cbn [fst snd].
  split; [done|]. unfold exec. rewrite save_eq, Hg, Hw.
  cbn [andb snd state_file set_state_file].
  eexists. split; [done|].
  rewrite (pins_to_save_exact a d info) by done. cbn [heap set_heap].
  rewrite list_lookup_insert_eq by (by eapply lookup_lt_Some). done.
Qed.

(** X12.  Switching persistence off deletes the record of the pin and nothing
    else; marking a pin and unmarking it again leaves the table as
    unmarking alone does. *)
Theorem persistence_off_deletes_record a w :
  let w' := exec (set_pin_persistence env a false) w in
  is_pin_persistent a w' = false /\
  (forall b, b <> a -> dict_get b (persistent_pins w') = dict_get b (persistent_pins w)) /\
  active_devices w' = active_devices w /\ heap w' = heap w /\
  dict_get a (pins_to_save w') = None /\
  persistent_pins (exec (set_pin_persistence env a false)
                     (exec (set_pin_persistence env a true) w)) = persistent_pins w'.
Proof.
  intros w'.
  assert (forall b v, exec (set_pin_persistence env a b) v =
            exec (save_persistent_states env)
              (set_persistent_pins
                 (if b then dict_set a {| is_persistent := true; rec_mode := None;
                                          rec_state := None |} (persistent_pins v)
                  else dict_pop a (persistent_pins v)) v)) as Heq.
  { intros b v. unfold exec, set_pin_persistence, bind, modify. by destruct b. }
  assert (forall v, persistent_pins (exec (save_persistent_states env) v) = persistent_pins v
                    /\ active_devices (exec (save_persistent_states env) v) = active_devices v
                    /\ heap (exec (save_persistent_states env) v) = heap v) as Hs.
  { intros v. destruct (save_frame v) as (? & _ & ? & ? & _). done. }
  assert (persistent_pins w' = dict_pop a (persistent_pins w)) as Hp.
  { unfold w'. rewrite Heq. by rewrite (proj1 (Hs _)). }
  split; [|split; [|split; [|split; [|split]]]].
  - unfold is_pin_persistent, dict_contains. by rewrite Hp, dict_get_pop_eq.
  - intros b Hb. rewrite Hp. by apply dict_get_pop_ne.
  - unfold w'. rewrite Heq. by rewrite (proj1 (proj2 (Hs _))).
  - unfold w'. rewrite Heq. by rewrite (proj2 (proj2 (Hs _))).
  - destruct (dict_get a (pins_to_save w')) eqn:E; [|done].
    assert (is_Some (dict_get a (pins_to_save w'))) as H by (rewrite E; eauto).
    apply pins_to_save_only_active in H as [[? H] _].
    rewrite Hp, dict_get_pop_eq in H. discriminate.
  - rewrite Hp, (Heq false), (proj1 (Hs _)). cbn.
    rewrite (Heq true), (proj1 (Hs _)). cbn. apply dict_pop_set.
Qed.



(** X14.  [_toggle_pulse] with a positive entry on an open LED switches the
    pulse of the pin: off when it was on, on with the converted interval
    when it was off. *)
Theorem toggle_pulse_toggles bcm dev p lit v units w :
  GPIO_AVAILABLE env = true ->
  heap w !! dev = Some {| obj := LED p lit; closed := false |} ->
  (0 < v)%Q ->
  let w' := exec (_toggle_pulse env bcm dev (Some v) units) w in
  fst (_toggle_pulse env bcm dev (Some v) units w) = Ret tt /\
  is_pin_pulsing bcm w' = negb (is_pin_pulsing bcm w) /\
  (is_pin_pulsing bcm w = false ->
     exists tid, pulse_threads w' !! bcm = Some tid /\
       threads w' !! tid = Some {| th_device := dev;
                                   th_interval := UNIT_CONVERSIONS units v;
                                   th_stop_event := false; th_pc := PcStart |}).
Proof.
  intros Hg Hd Hv w'. subst w'. unfold exec.
  destruct (is_pin_pulsing bcm w) eqn:Hp.
  - assert (_toggle_pulse env bcm dev (Some v) units w = stop_pulse env bcm w) as ->.
    { unfold _toggle_pulse, bind, gets. by rewrite Hp. }
    destruct (stop_pulse_frame env bcm w) as (Hpt & _).
    split; [apply stop_pulse_returns|]. split; [|done].
    unfold is_pin_pulsing. unfold exec in Hpt. rewrite Hpt, lookup_delete_eq.
    apply bool_decide_eq_false. by intros [? ?].
  - assert (pulse_threads w !! bcm = None) as Hnone.
    { unfold is_pin_pulsing in Hp. apply bool_decide_eq_false in Hp.
      destruct (pulse_threads w !! bcm); [|done]. exfalso. apply Hp. eauto. }
    assert (Qle_bool v 0 = false) as Hv'.
    { destruct (Qle_bool v 0) eqn:E; [|done]. apply Qle_bool_iff in E.
      exfalso. by apply (Qlt_not_le _ _ Hv). }
    assert (_toggle_pulse env bcm dev (Some v) units w =
            start_pulse env bcm dev (UNIT_CONVERSIONS units v) w) as ->.
    { unfold _toggle_pulse, bind at 1, gets at 1. rewrite Hp.
      unfold try_except, bind at 1, gets at 1. rewrite Hg.
      unfold isinstance. rewrite Hd. cbn [andb is_LED obj].
      unfold bind at 1, _get_interval_in_seconds. rewrite Hv'. unfold ret at 1.
      rewrite start_pulse_spec. done. }
    rewrite start_pulse_spec. cbv zeta. unfold exec. rewrite stop_pulse_noop by done.
    cbn [fst snd negb].
    split; [done|]. split.
    + unfold is_pin_pulsing. cbn. rewrite lookup_insert_eq.
      apply bool_decide_eq_true. eauto.
    + intros _. eexists. cbn. split; [apply lookup_insert_eq|].
      rewrite lookup_app_r by done. by rewrite Nat.sub_diag.
Qed.

(** X15.  The toggle button of the output window on a persistent pin: the LED
    is flipped and the state file holds the new level at once. *)
Theorem toggle_and_save_flips_record a d p lit info w :
  GPIO_AVAILABLE env = true ->
  (forall f c, write_ok env f c = true) ->
  NoDup (persistent_pins w).*1 ->
  dict_get a (persistent_pins w) = Some info ->
  active_devices w !! a = Some d ->
  heap w !! d = Some {| obj := LED p lit; closed := false |} ->
  let r := _toggle_and_save env d w in
  fst r = Ret tt /\
  heap (snd r) !! d = Some {| obj := LED p (negb lit); closed := false |} /\
  exists c, state_file (snd r) = Some c /\
            dict_get a c = Some {| is_persistent := is_persistent info;
                                   rec_mode := rec_mode info;
                                   rec_state := Some (if lit then LOW else HIGH) |}.
Proof.
  intros Hg Hw Hnd Hi Ha Hd r.
  set (w1 := set_heap (<[d := {| obj := LED p (negb lit); closed := false |}]> (heap w)) w).
  assert (heap w1 !! d = Some {| obj := LED p (negb lit); closed := false |}) as Hd1.
  { subst w1. cbn [heap set_heap]. apply list_lookup_insert_eq. by eapply lookup_lt_Some. }
  assert (r = (Ret tt, set_state_file (Some (pins_to_save w1)) w1)) as ->.
  { subst r. unfold _toggle_and_save, bind, device_toggle, led_write. rewrite Hd.
    fold w1. rewrite save_eq, Hg, Hw. done. }
  cbn [fst snd]. split; [done|]. split; [done|].
  eexists. split; [done|].
  rewrite (pins_to_save_exact a d info) by done.
  rewrite Hd1. by destruct lit.
Qed.

(** X16.  Closing the output window of a persistent pin that is pulsing: the
    pulse is stopped and the state file holds LOW for the pin. *)
Theorem window_close_records_low a tid d p lit info w :
  GPIO_AVAILABLE env = true ->
  (forall f c, write_ok env f c = true) ->
  NoDup (persistent_pins w).*1 ->
  dict_get a (persistent_pins w) = Some info ->
  pulse_threads w !! a = Some tid ->
  active_devices w !! a = Some d ->
  heap w !! d = Some {| obj := LED p lit; closed := false |} ->
  let r := OutputControlWindow_on_close env a w in
  fst r = Ret tt /\
  is_pin_pulsing a (snd r) = false /\
  exists c, state_file (snd r) = Some c /\
            dict_get a c = Some {| is_persistent := is_persistent info;
                                   rec_mode := rec_mode info;
                                   rec_state := Some LOW |}.
Proof.
  intros Hg Hw Hnd Hi Ht Ha Hd r.
  pose proof (stop_pulse_returns env a w) as Hr.
  destruct (stop_pulse_frame env a w) as (Hpt & Ha1 & Hp1 & _).
  pose proof (stop_pulse_switches_off env a tid d p lit w Hg Ht Ha Hd) as Hd1.
  set (w1 := exec (stop_pulse env a) w) in *.
  assert (r = (Ret tt, set_state_file (Some (pins_to_save w1)) w1)) as ->.
  { subst r. unfold OutputControlWindow_on_close, bind at 1, gets at 1.
    assert (is_pin_pulsing a w = true) as ->.
    { unfold is_pin_pulsing. apply bool_decide_eq_true. rewrite Ht. eauto. }
    unfold bind at 1. subst w1. unfold exec in *.
    destruct (stop_pulse env a w) as [r1 w1]. cbn [fst snd] in *. subst r1.
    rewrite save_eq, Hg, Hw. done. }
  cbn [fst snd]. split; [done|]. split.
  - unfold is_pin_pulsing. cbn [pulse_threads set_state_file]. 
    apply bool_decide_eq_false. 
    replace (pulse_threads (set_state_file (Some (pins_to_save w1)) w1))
      with (pulse_threads w1) by done.
    rewrite Hpt, lookup_delete_eq. by intros [? ?].
  - eexists. split; [done|].
    rewrite (pins_to_save_exact a d info); [|by rewrite Hp1|by rewrite Hp1|by rewrite Ha1].
    by rewrite Hd1.
Qed.

End More.

(** X18.  The widgets of the pins are laid out like the header: two columns,
    a pin per cell, odd pins on the left. *)
Theorem grid_cell_layout p q :
  (grid_cell p = grid_cell q -> p = q) /\
  (snd (grid_cell p) = 0 \/ snd (grid_cell p) = 1) /\
  (snd (grid_cell p) = 0 <-> Z.odd p = true) /\
  (1 <= p <= 40 -> 0 <= fst (grid_cell p) <= 19).
Proof.
  unfold grid_cell. cbn [fst snd]. split; [|split; [|split]].
  - intros H. injection H as H1 H2.
    pose proof (Z.div_mod (p - 1) 2 ltac:(lia)). pose proof (Z.div_mod (q - 1) 2 ltac:(lia)).
    lia.
  - pose proof (Z.mod_pos_bound (p - 1) 2 ltac:(lia)). lia.
  - rewrite Z.odd_spec. pose proof (Z.div_mod (p - 1) 2 ltac:(lia)). split.
    + intros H0. exists ((p - 1) / 2). lia.
    + intros [m Hm]. rewrite Hm. replace (2 * m + 1 - 1) with (m * 2) by lia.
      apply Z.mod_mul. lia.
  - intros Hp. split.
    + apply Z.div_pos; lia.
    + assert ((p - 1) / 2 < 20); [|lia]. apply Z.div_lt_upper_bound; lia.
Qed.

Lemma catalog_lookup (l : list PinInfo) (m : gmap Z PinInfo) b info :
  NoDup (omap bcm l) ->
  foldl (fun m info => match bcm info with
                       | Some b => <[b := info]> m
                       | None => m
                       end) m l !! b = Some info <->
  (info ∈ l /\ bcm info = Some b) \/ (m !! b = Some info /\ b ∉ omap bcm l).
Proof.
  revert m. induction l as [|x l IH]; intros m Hnd.
  - simpl. split; [intros H; right; split; [done|apply not_elem_of_nil]|].
    intros [[H _]|[H _]]; [by apply elem_of_nil in H|done].
  - cbn [foldl]. simpl in Hnd. destruct (bcm x) as [bx|] eqn:Hx.
    + apply NoDup_cons in Hnd as [Hbx Hnd]. rewrite IH by done.
      simpl. rewrite Hx. split.
      * intros [[H1 H2]|[H1 H2]].
        -- left. split; [by apply list_elem_of_further|done].
        -- destruct (decide (bx = b)) as [->|Hne].
           ++ rewrite lookup_insert_eq in H1. injection H1 as <-.
              left. split; [apply list_elem_of_here|done].
           ++ rewrite lookup_insert_ne in H1 by done. right. split; [done|].
              rewrite not_elem_of_cons. split; [congruence|done].
      * intros [[H1 H2]|[H1 H2]].
        -- apply elem_of_cons in H1 as [->|H1].
           ++ right. rewrite Hx in H2. injection H2 as ->.
              rewrite lookup_insert_eq. done.
           ++ left. done.
        -- apply not_elem_of_cons in H2 as [Hne H2]. right.
           rewrite lookup_insert_ne by congruence. done.
    + rewrite IH by done. simpl. rewrite Hx. split.
      * intros [[H1 H2]|H]; [|by right]. left. split; [by apply list_elem_of_further|done].
      * intros [[H1 H2]|H]; [|by right]. apply elem_of_cons in H1 as [->|H1]; [congruence|].
        by left.
Qed.

(** X19.  The catalog is indexed without loss: [BCM_PIN_MAP] finds under an
    address exactly the entry of [PIN_CONFIG] with that address, and the
    page has a widget for exactly these addresses. *)
Theorem catalog_index b info :
  (BCM_PIN_MAP !! b = Some info <-> info ∈ PIN_CONFIG /\ bcm info = Some b) /\
  (b ∈ pin_display_widgets <-> exists info', info' ∈ PIN_CONFIG /\ bcm info' = Some b).
Proof.
  assert (NoDup (omap bcm PIN_CONFIG)) as Hnd.
  { apply (bool_decide_unpack (NoDup (omap bcm PIN_CONFIG))). vm_compute. exact I. }
  assert (forall i, BCM_PIN_MAP !! b = Some i <-> i ∈ PIN_CONFIG /\ bcm i = Some b) as H.
  { intros i. unfold BCM_PIN_MAP. rewrite catalog_lookup by done. rewrite lookup_empty.
    split; [intros [?|[? _]]; done|by left]. }
  split; [apply H|]. rewrite widgets_are_catalog. split.
  - intros [i Hi]. exists i. by apply H.
  - intros (i & Hi). exists i. by apply H.
Qed.

(** X20.  The track index of the radio stays inside the playlist: the next
    track after the last one is the first, and the previous track of the
    next one is the track one came from. *)
Theorem radio_next_then_prev r :
  radio_player r = true ->
  radio_playlist r <> [] ->
  let len := Z.of_nat (length (radio_playlist r)) in
  let r' := radio_next_track r in
  0 <= radio_current_track_idx r' < len /\
  radio_playlist r' = radio_playlist r /\
  (exists track, radio_playlist r !! Z.to_nat (radio_current_track_idx r') = Some track /\
                 _radio_current_media r' = Some (as_posix track)) /\
  (radio_current_track_idx r = len - 1 -> radio_current_track_idx r' = 0) /\
  (0 <= radio_current_track_idx r < len ->
     radio_current_track_idx (radio_prev_track r') = radio_current_track_idx r).
Proof.
  intros Hp Hne len r'.
  assert (0 < len) as Hlen by (unfold len; destruct (radio_playlist r); [done|simpl; lia]).
  assert (forall i, 0 <= i < len ->
            exists track, radio_playlist r !! Z.to_nat i = Some track /\
              radio_play_track (set_track_idx i r) =
              {| radio_player := true; radio_playlist := radio_playlist r;
                 radio_current_track_idx := i;
                 radio_current_track_title := stem track;
                 radio_current_track_artist := "Loading...";
                 radio_current_track_duration_ms := 0;
                 _radio_current_media := Some (as_posix track) |}) as Hplay.
  { intros i Hi. destruct (lookup_lt_is_Some_2 (radio_playlist r) (Z.to_nat i)) as [t Ht];
      [unfold len in Hi; lia|].
    exists t. split; [done|]. unfold radio_play_track, track_at.
    cbn [radio_player radio_playlist radio_current_track_idx set_track_idx].
    rewrite Hp, (bool_decide_eq_false_2 _ Hne). fold len.
    rewrite (proj2 (Z.leb_le 0 i)) by lia. rewrite (proj2 (Z.ltb_lt i len)) by lia.
    cbn [negb orb andb]. by rewrite Ht. }
  assert (forall i, radio_next_track (set_track_idx i r) =
                    radio_play_track (set_track_idx ((i + 1) mod len) r)) as Hnext.
  { intros i. unfold radio_next_track. cbn [radio_player radio_playlist set_track_idx].
    rewrite Hp, (bool_decide_eq_false_2 _ Hne). done. }
  pose proof (Z.mod_pos_bound (radio_current_track_idx r + 1) len Hlen) as Hb.
  destruct (Hplay _ Hb) as (t & Ht & Heq).
  assert (r' = radio_play_track
                 (set_track_idx ((radio_current_track_idx r + 1) mod len) r)) as Hr'.
  { unfold r', radio_next_track. rewrite Hp, (bool_decide_eq_false_2 _ Hne). done. }
  rewrite Heq in Hr'. rewrite Hr'.
  cbn [radio_current_track_idx radio_playlist _radio_current_media].
  split; [done|]. split; [done|]. split; [eauto|]. split.
  - intros ->. replace (len - 1 + 1) with len by lia. apply Z.mod_same. lia.
  - intros Hi. unfold radio_prev_track.
    cbn [radio_player radio_playlist radio_current_track_idx].
    rewrite (bool_decide_eq_false_2 _ Hne). cbn [negb orb]. fold len.
    set (j := ((radio_current_track_idx r + 1) mod len - 1 + len) mod len).
    assert (j = radio_current_track_idx r) as Hj.
    { unfold j. destruct (decide (radio_current_track_idx r + 1 = len)) as [E|E].
      - rewrite E, Z.mod_same by lia. rewrite Z.mod_small by lia. lia.
      - rewrite (Z.mod_small (radio_current_track_idx r + 1)) by lia.
        replace (radio_current_track_idx r + 1 - 1 + len)
          with (radio_current_track_idx r + 1 * len) by lia.
        rewrite Z.mod_add by lia. apply Z.mod_small. lia. }
    rewrite Hj. unfold radio_play_track, track_at.
    cbn [radio_player radio_playlist radio_current_track_idx set_track_idx].
    rewrite (bool_decide_eq_false_2 _ Hne). fold len.
    rewrite (proj2 (Z.leb_le 0 _)) by lia. rewrite (proj2 (Z.ltb_lt _ len)) by lia.
    cbn [negb orb andb].
    destruct (lookup_lt_is_Some_2 (radio_playlist r) (Z.to_nat (radio_current_track_idx r)))
      as [t' Ht']; [unfold len in Hi; lia|].
    by rewrite Ht'.
Qed.


Section Hide.

Variable env : Environment.

(** A loop [for pin in l: if not persistent: body(pin)] whose body
    returns, keeps the persistence table, unregisters the pulse of the
    pin and, when [del], the device of the pin. *)
Lemma for_non_persistent_spec (body : Z -> M unit) (del : bool) :
  (forall pin w, is_pin_persistent pin w = false ->
     exists w', body pin w = (Ret tt, w') /\
       persistent_pins w' = persistent_pins w /\
       pulse_threads w' = delete pin (pulse_threads w) /\
       active_devices w' = if del then delete pin (active_devices w)
                           else active_devices w) ->
  forall l w, exists w',
    for_non_persistent l body w = (Ret tt, w') /\
    persistent_pins w' = persistent_pins w /\
    (forall a, pulse_threads w' !! a =
       if (bool_decide (a ∈ l) && negb (is_pin_persistent a w))%bool then None
       else pulse_threads w !! a) /\
    (forall a, active_devices w' !! a =
       if (del && bool_decide (a ∈ l) && negb (is_pin_persistent a w))%bool then None
       else active_devices w !! a).
Proof.
  intros Hbody l. induction l as [|pin l IH]; intros w.
  - exists w. split; [done|]. split; [done|]. split; intros a.
    + rewrite bool_decide_eq_false_2 by apply not_elem_of_nil. done.
    + rewrite bool_decide_eq_false_2 by apply not_elem_of_nil. by rewrite andb_false_r.
  - cbn [for_non_persistent]. unfold bind at 1, gets at 1. unfold bind at 1.
    assert (exists w1, (if is_pin_persistent pin w then pass else body pin) w = (Ret tt, w1) /\
              persistent_pins w1 = persistent_pins w /\
              pulse_threads w1 = (if is_pin_persistent pin w then pulse_threads w
                                  else delete pin (pulse_threads w)) /\
              active_devices w1 = (if (del && negb (is_pin_persistent pin w))%bool
                                   then delete pin (active_devices w)
                                   else active_devices w)) as (w1 & -> & Hp1 & Hpt1 & Ha1).
    { destruct (is_pin_persistent pin w) eqn:Hpp.
      - exists w. rewrite andb_false_r. done.
      - destruct (Hbody pin w Hpp) as (w1 & -> & ? & ? & ?). exists w1.
        rewrite andb_true_r. done. }
    destruct (IH w1) as (w' & -> & Hp & Hpt & Ha). exists w'.
    assert (forall a, is_pin_persistent a w1 = is_pin_persistent a w) as Hsame
      by (intros a; unfold is_pin_persistent; by rewrite Hp1).
    split; [done|]. split; [congruence|]. split; intros a.
    + rewrite Hpt, Hsame, Hpt1. destruct (decide (a = pin)) as [->|Hne].
      * rewrite (bool_decide_eq_true_2 (pin ∈ pin :: l)) by apply list_elem_of_here.
        destruct (is_pin_persistent pin w); [by rewrite !andb_false_r|].
        rewrite lookup_delete_eq. cbn [negb andb]. by destruct (bool_decide _).
      * assert (bool_decide (a ∈ pin :: l) = bool_decide (a ∈ l)) as ->.
        { apply bool_decide_ext. rewrite elem_of_cons. split; [|tauto].
          intros [?|?]; [done|done]. }
        destruct (bool_decide (a ∈ l) && negb (is_pin_persistent a w))%bool; [done|].
        destruct (is_pin_persistent pin w); [done|by rewrite lookup_delete_ne].
    + rewrite Ha, Hsame, Ha1. destruct (decide (a = pin)) as [->|Hne].
      * rewrite (bool_decide_eq_true_2 (pin ∈ pin :: l)) by apply list_elem_of_here.
        destruct del; [|done]. cbn [andb].
        destruct (is_pin_persistent pin w); [by rewrite !andb_false_r|].
        cbn [negb andb]. rewrite lookup_delete_eq. by destruct (bool_decide _).
      * assert (bool_decide (a ∈ pin :: l) = bool_decide (a ∈ l)) as ->.
        { apply bool_decide_ext. rewrite elem_of_cons. split; [|tauto].
          intros [?|?]; [done|done]. }
        destruct (del && bool_decide (a ∈ l) && negb (is_pin_persistent a w))%bool; [done|].
        destruct (del && negb (is_pin_persistent pin w))%bool; [by rewrite lookup_delete_ne|done].
Qed.

Lemma stop_pulse_body pin w :
  exists w', stop_pulse env pin w = (Ret tt, w') /\
    persistent_pins w' = persistent_pins w /\
    pulse_threads w' = delete pin (pulse_threads w) /\
    active_devices w' = active_devices w.
Proof.
  pose proof (stop_pulse_returns env pin w) as Hr.
  destruct (stop_pulse_frame env pin w) as (Hpt & Ha & Hp & _). unfold exec in *.
  destruct (stop_pulse env pin w) as [r w']. simpl in *. subst r. eauto.
Qed.

Lemma cleanup_pin_body pin w :
  (forall h d, close_ok env h d = true) ->
  is_pin_persistent pin w = false ->
  exists w', cleanup_pin env pin w = (Ret tt, w') /\
    persistent_pins w' = persistent_pins w /\
    pulse_threads w' = delete pin (pulse_threads w) /\
    active_devices w' = delete pin (active_devices w).
Proof.
  intros Hc Hnp. pose proof (cleanup_pin_returns env pin w) as Hr.
  destruct (cleanup_pin_fields env pin w) as (Hp & Hpt & Ha & _).
  destruct (stop_pulse_frame env pin w) as (_ & Ha1 & _).
  unfold exec in *. destruct (cleanup_pin env pin w) as [r w']. simpl in *. subst r.
  exists w'. split; [done|]. split; [|split; [done|]].
  - rewrite Hp. apply dict_pop_absent. unfold is_pin_persistent, dict_contains in Hnp.
    by destruct (dict_get pin (persistent_pins w)).
  - rewrite Ha. unfold release_step. rewrite Ha1.
    destruct (active_devices w !! pin) as [d|] eqn:Hd.
    + rewrite Hc. by destruct (GPIO_AVAILABLE env).
    + by rewrite delete_id.
Qed.

(** X17.  When the page goes out of view, with a driver whose [close] does not
    raise: the pins that are not persistent lose their pulse and their
    device, and the persistent pins keep theirs; the persistence table is
    untouched. *)
Theorem on_hide_keeps_persistent_pins (keys : gmap Z nat -> list Z) w :
  (forall (m : gmap Z nat) a, a ∈ keys m <-> is_Some (m !! a)) ->
  (forall h d, close_ok env h d = true) ->
  let w' := exec (on_hide env keys) w in
  fst (on_hide env keys w) = Ret tt /\
  persistent_pins w' = persistent_pins w /\
  (forall a, active_devices w' !! a =
     if is_pin_persistent a w then active_devices w !! a else None) /\
  (forall a, pulse_threads w' !! a =
     if is_pin_persistent a w then pulse_threads w !! a else None).
Proof.
  intros Hkeys Hc w'.
  destruct (save_frame env w) as (Hp0 & Hpt0 & Ha0 & _).
  set (w0 := exec (save_persistent_states env) w) in *.
  destruct (for_non_persistent_spec (stop_pulse env) false
              (fun pin v _ => stop_pulse_body pin v) (keys (pulse_threads w0)) w0)
    as (w1 & E1 & Hp1 & Hpt1 & Ha1).
  destruct (for_non_persistent_spec (cleanup_pin env) true
              (fun pin v H => cleanup_pin_body pin v Hc H) (keys (active_devices w1)) w1)
    as (w2 & E2 & Hp2 & Hpt2 & Ha2).
  assert (on_hide env keys w = (Ret tt, w2)) as Heq.
  { unfold on_hide, bind at 1. rewrite save_eq. fold (exec (save_persistent_states env) w).
    assert (exec (save_persistent_states env) w = w0) as Hw0 by done.
    unfold exec in Hw0. rewrite save_eq in Hw0. cbn [snd] in Hw0. rewrite Hw0.
    unfold bind at 1, gets at 1. unfold bind at 1. rewrite E1.
    unfold bind at 1, gets at 1. by rewrite E2. }
  subst w'. unfold exec. rewrite Heq. cbn [fst snd].
  assert (forall a v, persistent_pins v = persistent_pins w ->
            is_pin_persistent a v = is_pin_persistent a w) as Hsame
    by (intros a v E; unfold is_pin_persistent; by rewrite E).
  split; [done|]. split; [congruence|]. split; intros a.
  - rewrite Ha2, (Hsame a w1) by congruence. cbn [andb].
    rewrite Ha1, andb_false_l, Ha0.
    destruct (is_pin_persistent a w); [by rewrite andb_false_r|]. rewrite andb_true_r.
    case_bool_decide as Hin; [done|].
    rewrite Hkeys in Hin.
    assert (active_devices w1 !! a = active_devices w !! a) as E.
    { rewrite Ha1, andb_false_l. by rewrite Ha0. }
    rewrite E in Hin. destruct (active_devices w !! a); [|done]. exfalso. apply Hin. eauto.
  - rewrite Hpt2, (Hsame a w1) by congruence.
    rewrite Hpt1, (Hsame a w0) by congruence. rewrite Hpt0.
    destruct (is_pin_persistent a w); [by rewrite !andb_false_r|]. rewrite !andb_true_r.
    case_bool_decide as Hin2; [done|]. case_bool_decide as Hin1; [done|].
    rewrite Hkeys in Hin1.
    destruct (pulse_threads w !! a); [|done]. exfalso. apply Hin1. eauto.
Qed.

End Hide.

(** ** The properties above on the board *)

Lemma dict_keys_spec (m : gmap Z nat) a : a ∈ dict_keys m <-> is_Some (m !! a).
Proof.
  unfold dict_keys. rewrite list_elem_of_fmap. split.
  - intros ([k v] & -> & H). apply elem_of_map_to_list in H. simpl. eauto.
  - intros [v H]. exists (a, v). split; [done|]. by apply elem_of_map_to_list.
Qed.

Lemma board_saved17_raises :
  fst (GPIOPage_init board (Some saved17)) = Raise RuntimeError.
Proof.
  assert (NoDup saved17.*1) as Hnd by (apply NoDup_singleton).
  assert ((17, {| is_persistent := true; rec_mode := Some "OUTPUT";
                  rec_state := Some HIGH |}) ∈ saved17) as Hin
    by (apply list_elem_of_here).
  exact (proj1 (load_of_a_saved_mode_raises board saved17 17 _ "OUTPUT" OUTPUT
                  eq_refl Hnd Hin eq_refl eq_refl)).
Defined.

Lemma board_setup_forgets_persistence :
  active_devices fresh !! 17 = None /\
  is_pin_persistent 17 (exec (setup_pin board 17 OUTPUT false) fresh) = false.
Proof.
  assert (active_devices fresh !! 17 = None) as Ha by (vm_compute; reflexivity).
  split; [exact Ha|].
  exact (proj1 (proj2 (setup_pin_drops_persistence board 17 OUTPUT false fresh Ha))).
Defined.

Lemma board_setup_installs_pwm :
  active_devices (exec (setup_pin board 18 PWM false) fresh) !! 18 = Some 0%nat.
Proof.
  assert (BCM_PIN_MAP !! 18 = Some (gpio_pwm 12 "GPIO18" 18)) as Hb
    by (vm_compute; reflexivity).
  assert (active_devices fresh !! 18 = None) as Ha by (vm_compute; reflexivity).
  assert (constructor_ok board (heap (exec (cleanup_pin board 18) fresh)) 18 PWM = true) as Hc
    by (vm_compute; reflexivity).
  exact (proj1 (proj2 (setup_pin_installs board 18 PWM false _ fresh eq_refl Hb Ha Hc))).
Defined.

Lemma headless_setup_creates_nothing :
  setup_pin headless 17 OUTPUT false fresh =
  (Ret tt, set_persistent_pins (dict_pop 17 (persistent_pins fresh)) fresh).
Proof.
  assert (active_devices fresh !! 17 = None) as Ha by (vm_compute; reflexivity).
  assert (pulse_threads fresh !! 17 = None) as Hp by (vm_compute; reflexivity).
  exact (proj1 (proj2 (without_gpiozero_nothing_is_created headless 17 OUTPUT false None
                         fresh eq_refl Ha Hp))).
Defined.

Lemma board_upper_case_high :
  handle_ai_gpio_request board 17 "HIGH" (output17 board) =
  handle_ai_gpio_request board 17 "high" (output17 board).
Proof.
  assert (active_devices (output17 board) !! 17 = Some 0%nat) as Ha
    by (vm_compute; reflexivity).
  assert (heap (output17 board) !! 0%nat =
          Some {| obj := LED 17 false; closed := false |}) as Hd
    by (vm_compute; reflexivity).
  assert (lower "HIGH" = "high") as Hl by (vm_compute; reflexivity).
  exact (proj1 (set_state_ignores_case board 17 "HIGH" 0%nat 17 false (output17 board)
                  eq_refl Ha Hd) Hl).
Defined.


Lemma board_cleanup17_keeps18 :
  active_devices (exec (cleanup_pin board 17) (output17 board)) !! 18 =
  active_devices (output17 board) !! 18.
Proof.
  assert (18 <> 17) as Hne by lia.
  exact (proj1 (cleanup_pin_leaves_other_pins board 17 18 (output17 board) Hne)).
Defined.


Lemma board_high_is_in_the_file :
  fst (handle_ai_gpio_request board 17 (state_text true) (persistent17 board)) =
  Ret (Applied 17 true).
Proof.
  assert (NoDup (persistent_pins (persistent17 board)).*1) as Hnd
    by (vm_compute; apply NoDup_singleton).
  assert (dict_get 17 (persistent_pins (persistent17 board)) =
          Some {| is_persistent := true; rec_mode := None; rec_state := None |}) as Hi
    by (vm_compute; reflexivity).
  assert (active_devices (persistent17 board) !! 17 = Some 0%nat) as Ha
    by (vm_compute; reflexivity).
  assert (heap (persistent17 board) !! 0%nat =
          Some {| obj := LED 17 false; closed := false |}) as Hd
    by (vm_compute; reflexivity).
  exact (proj1 (set_state_is_persisted board 17 true 0%nat 17 false _ (persistent17 board)
                  eq_refl (fun _ _ => eq_refl) Hnd Hi Ha Hd)).
Defined.

Lemma board_persistence_off17 :
  is_pin_persistent 17 (exec (set_pin_persistence board 17 false) (persistent17 board)) = false.
Proof.
  exact (proj1 (persistence_off_deletes_record board 17 (persistent17 board))).
Defined.


Lemma board_window_starts_pulse :
  is_pin_pulsing 17
    (exec (_toggle_pulse board 17 0%nat (Some 500%Q) Milliseconds) (output17 board)) =
  negb (is_pin_pulsing 17 (output17 board)).
Proof.
  assert (heap (output17 board) !! 0%nat =
          Some {| obj := LED 17 false; closed := false |}) as Hd
    by (vm_compute; reflexivity).
  assert (0 < 500)%Q as Hv by (vm_compute; reflexivity).
  exact (proj1 (proj2 (toggle_pulse_toggles board 17 0%nat 17 false 500%Q Milliseconds
                         (output17 board) eq_refl Hd Hv))).
Defined.

Lemma board_toggle_is_in_the_file :
  heap (snd (_toggle_and_save board 0%nat (persistent17 board))) !! 0%nat =
  Some {| obj := LED 17 true; closed := false |}.
Proof.
  assert (NoDup (persistent_pins (persistent17 board)).*1) as Hnd
    by (vm_compute; apply NoDup_singleton).
  assert (dict_get 17 (persistent_pins (persistent17 board)) =
          Some {| is_persistent := true; rec_mode := None; rec_state := None |}) as Hi
    by (vm_compute; reflexivity).
  assert (active_devices (persistent17 board) !! 17 = Some 0%nat) as Ha
    by (vm_compute; reflexivity).
  assert (heap (persistent17 board) !! 0%nat =
          Some {| obj := LED 17 false; closed := false |}) as Hd
    by (vm_compute; reflexivity).
  exact (proj1 (proj2 (toggle_and_save_flips_record board 17 0%nat 17 false _
                         (persistent17 board)
                         eq_refl (fun _ _ => eq_refl) Hnd Hi Ha Hd))).
Defined.

Lemma board_window_close_stops_pulse :
  is_pin_pulsing 17 (snd (OutputControlWindow_on_close board 17 (persistent_pulsing17 board)))
  = false.
Proof.
  assert (NoDup (persistent_pins (persistent_pulsing17 board)).*1) as Hnd
    by (vm_compute; apply NoDup_singleton).
  assert (dict_get 17 (persistent_pins (persistent_pulsing17 board)) =
          Some {| is_persistent := true; rec_mode := None; rec_state := None |}) as Hi
    by (vm_compute; reflexivity).
  assert (pulse_threads (persistent_pulsing17 board) !! 17 = Some 0%nat) as Ht
    by (vm_compute; reflexivity).
  assert (active_devices (persistent_pulsing17 board) !! 17 = Some 0%nat) as Ha
    by (vm_compute; reflexivity).
  assert (heap (persistent_pulsing17 board) !! 0%nat =
          Some {| obj := LED 17 false; closed := false |}) as Hd
    by (vm_compute; reflexivity).
  exact (proj1 (proj2 (window_close_records_low board 17 0%nat 0%nat 17 false _
                         (persistent_pulsing17 board)
                         eq_refl (fun _ _ => eq_refl) Hnd Hi Ht Ha Hd))).
Defined.

Lemma grid_cell_of_pin_40 : 0 <= fst (grid_cell 40) <= 19.
Proof.
  assert (1 <= 40 <= 40) as H by lia.
  exact (proj2 (proj2 (proj2 (grid_cell_layout 40 40))) H).
Defined.

Lemma catalog_index_of_17 :
  17 ∈ pin_display_widgets <-> exists info', info' ∈ PIN_CONFIG /\ bcm info' = Some 17.
Proof.
  exact (proj2 (catalog_index 17 (gpio 11 "GPIO17" 17))).
Defined.

Lemma radio3_wraps_around :
  radio_current_track_idx (radio_next_track radio3) = 0.
Proof.
  assert (radio_player radio3 = true) as Hp by reflexivity.
  assert (radio_playlist radio3 <> []) as Hl by discriminate.
  exact (proj1 (proj2 (proj2 (proj2 (radio_next_then_prev radio3 Hp Hl)))) eq_refl).
Defined.

Lemma board_hide_keeps_persistent17 :
  active_devices (exec (on_hide board dict_keys) (persistent17 board)) !! 17 =
  if is_pin_persistent 17 (persistent17 board)
  then active_devices (persistent17 board) !! 17 else None.
Proof.
  exact (proj1 (proj2 (proj2 (on_hide_keeps_persistent_pins board dict_keys (persistent17 board)
                                dict_keys_spec (fun _ _ => eq_refl)))) 17).
Defined.
